(** * DocSidebarItem: the themed sidebar item of the documentation site

    A shallow embedding of [src/theme/DocSidebarItem/index.js]: the
    active-path matcher, the item dispatcher, the version dropdown, the
    collapsible category with its hooks, and the link renderer.

    Function components are modelled as functions from props (and hook
    state) to the React elements they return; an element keeps the
    attributes the component computes.  Static [style] objects and React
    [key]s are left out: no decision of the component reads them. *)

From Stdlib Require Import String Ascii List Bool ZArith Lia.
Import ListNotations.
Open Scope string_scope.
Set Warnings "-register-all".

(** ** JavaScript values and operators used by the component *)

Module JS.

(** The values a sidebar item's [customProps] (and the arguments of
    [clsx]) take here.  Objects keep their own enumerable string keys
    in insertion order, as [for (k in obj)] visits them. *)
Inductive jsval : Type :=
| JUndefined
| JNull
| JBool (b : bool)
| JStr (s : string)
| JObj (fields : list (string * jsval)).

(** [if (v)] and [v && ...]: ToBoolean. *)
Definition truthy (v : jsval) : bool :=
  match v with
  | JUndefined | JNull => false
  | JBool b => b
  | JStr s => negb (s =? "")
  | JObj _ => true
  end.

(** [v === "lit"] against a string literal: only a string with the same
    content is strictly equal to it. *)
Definition strictEqString (v : jsval) (lit : string) : bool :=
  match v with
  | JStr s => s =? lit
  | _ => false
  end.

Fixpoint lookupField (fields : list (string * jsval)) (k : string) : jsval :=
  match fields with
  | [] => JUndefined
  | (k', v) :: rest => if k' =? k then v else lookupField rest k
  end.

(** [v.k] on a value that is neither [undefined] nor [null]: an own
    property of an object, [undefined] on a primitive (no wrapper
    prototype defines the keys read here). *)
Definition getProp (v : jsval) (k : string) : jsval :=
  match v with
  | JObj fields => lookupField fields k
  | _ => JUndefined
  end.

(** [obj[k] = v]: an existing key keeps its position, a new key is
    appended.  An object literal is the successive definition of its
    properties. *)
Fixpoint setField (fields : list (string * jsval)) (k : string) (v : jsval)
  : list (string * jsval) :=
  match fields with
  | [] => [(k, v)]
  | (k', v') :: rest =>
      if k' =? k then (k', v) :: rest else (k', v') :: setField rest k v
  end.

Definition objectLiteral (props : list (string * jsval)) : jsval :=
  JObj (fold_left (fun acc kv => setField acc (fst kv) (snd kv)) props []).

(** [s.split(sep)] for a one-character separator: never empty, the
    pieces between successive separators. *)
Fixpoint split (sep : ascii) (s : string) : list string :=
  match s with
  | EmptyString => [EmptyString]
  | String c rest =>
      if Ascii.eqb c sep then EmptyString :: split sep rest
      else match split sep rest with
           | [] => [String c EmptyString]
           | piece :: pieces => String c piece :: pieces
           end
  end.

(** [arr[i]] on an array of strings: a string, or [undefined] ([None])
    past the end. *)
Definition index (arr : list string) (i : nat) : option string :=
  nth_error arr i.

(** [a == b] when each operand is a string or [undefined]: strings
    compare by content, [undefined] is loosely equal to [undefined] and
    to no string. *)
Definition looseEq (a b : option string) : bool :=
  match a, b with
  | Some x, Some y => x =? y
  | None, None => true
  | _, _ => false
  end.

(** [str && (str += ' '); str += x] *)
Definition appendClass (str x : string) : string :=
  (if str =? "" then str else str ++ " ") ++ x.

(** clsx's [toVal]: a string is itself, an object contributes its keys
    with a truthy value, anything else nothing. *)
Definition toVal (mix : jsval) : string :=
  match mix with
  | JStr s => s
  | JObj fields =>
      fold_left
        (fun str kv => if truthy (snd kv) then appendClass str (fst kv) else str)
        fields ""
  | _ => ""
  end.

(** [clsx(...args)]: falsy arguments and empty contributions are
    skipped, the rest joined by single spaces. *)
Definition clsx (args : list jsval) : string :=
  fold_left
    (fun str tmp =>
       if truthy tmp
       then let x := toVal tmp in
            if x =? "" then str else appendClass str x
       else str)
    args "".

(** The tokens of a [class] attribute. *)
Definition classList (className : string) : list string :=
  split " "%char className.

End JS.
Import JS.

(** ** Data model *)

(** A sidebar item as the component reads it: [type] selects the variant,
    a category carries [items], [collapsible] and [collapsed], a link
    carries [href] and an optional [customProps] ([JUndefined] when the
    property is missing). *)
Inductive SidebarItem : Type :=
  mkItem {
    type : string;
    label : string;
    href : string;
    items : list SidebarItem;
    collapsible : bool;
    collapsed : bool;
    customProps : jsval
  }.

(** Induction over the item tree, with the children covered by [Forall]. *)
Definition SidebarItem_tree_ind (P : SidebarItem -> Prop)
  (step : forall ty lb hr its cb cd cp,
      Forall P its -> P (mkItem ty lb hr its cb cd cp))
  : forall item, P item :=
  fix go (item : SidebarItem) : P item :=
    match item with
    | mkItem ty lb hr its cb cd cp =>
        step ty lb hr its cb cd cp
          ((fix all (l : list SidebarItem) : Forall P l :=
              match l with
              | [] => Forall_nil P
              | x :: r => Forall_cons x (go x) (all r)
              end) its)
    end.

(** The collaborators the theme imports: [isSamePath] of theme-common,
    [isInternalUrl], the [useBaseUrl] resolver and the class name the CSS
    module generates for [styles.menuLinkText]. *)
Class Collaborators : Type := {
  isSamePath : string -> string -> bool;
  isInternalUrl : string -> bool;
  useBaseUrl : string -> string;
  styles_menuLinkText : string
}.

(** The props every item component receives.  [onItemClick] is an opaque
    callback, written [OnItemClick] where a component attaches it;
    [tabIndex] is the only member of the rest [...props] the sidebar ever
    passes down. *)
Record Props : Type := mkProps {
  activePath : string;
  tabIndex : option Z
}.

(** ** Active-path matcher *)

Section Matcher.
Context {C : Collaborators}.

Fixpoint isActiveSidebarItem (item : SidebarItem) (activePath : string) : bool :=
  match item with
  | mkItem ty _ hr its _ _ _ =>
      if ty =? "link" then isSamePath hr activePath
      else if ty =? "category" then
        existsb (fun subItem => isActiveSidebarItem subItem activePath) its
      else false
  end.

End Matcher.

(** ** React elements *)

(** The two callbacks that end up in an [onClick]: the [onItemClick] prop,
    and the category header's
    [(e) => { e.preventDefault(); toggleCollapsed(); }]. *)
Inductive handler : Type :=
| OnItemClick
| PreventDefaultAndToggle.

Record attrs : Type := mkAttrs {
  className : option string;
  target : option string;          (* [href] of an anchor, [to] of a Link *)
  onClick : option handler;
  attrTabIndex : option Z;
  isNavLink : bool;
  exact : bool
}.

Definition noAttrs : attrs := mkAttrs None None None None false false.

Definition classed (c : string) : attrs :=
  mkAttrs (Some c) None None None false false.

(** What a component returns: host elements, the theme's [Link],
    [IconExternalLink] and [Collapsible], and elements of this file's own
    components, which React renders in turn. *)
Inductive element : Type :=
| Text (s : string)
| Host (tag : string) (a : attrs) (children : list element)
| LinkEl (a : attrs) (children : list element)
| IconExternalLinkEl
| CollapsibleEl (lazy : bool) (as_ : string) (cls : string)
    (isCollapsed : bool) (children : list element)
| DocSidebarItemsEl (its : list SidebarItem) (p : Props)
| DocSidebarItemEl (item : SidebarItem) (p : Props)
| DocSidebarItemCategoryEl (item : SidebarItem) (p : Props)
| DocSidebarVersionDropdownEl (item : SidebarItem) (p : Props)
| DocSidebarItemLinkEl (item : SidebarItem) (p : Props).

Definition attrsOf (e : element) : attrs :=
  match e with
  | Host _ a _ | LinkEl a _ => a
  | _ => noAttrs
  end.

Definition classesOf (e : element) : list string :=
  match className (attrsOf e) with
  | Some c => classList c
  | None => []
  end.

(** ** List renderer and dispatcher *)

(** One [<DocSidebarItem>] per item, in order (the body of the memoised
    [DocSidebarItems]). *)
Definition DocSidebarItems (its : list SidebarItem) (props : Props)
  : list element :=
  map (fun item => DocSidebarItemEl item props) its.

(** [switch (item.type)]: the ["link"] case has no [return] after its
    [if], so it falls through to [default]. *)
Definition DocSidebarItem (item : SidebarItem) (props : Props)
  : option element :=
  if type item =? "category" then
    if Nat.eqb (length (items item)) 0 then None
    else Some (DocSidebarItemCategoryEl item props)
  else if (type item =? "link")
          && strictEqString (customProps item) "versioned" then
    Some (DocSidebarVersionDropdownEl item props)
  else Some (DocSidebarItemLinkEl item props).

(** What React puts in the tree for a list of items: a component that
    returned [null] leaves nothing. *)
Definition renderedItems (its : list SidebarItem) (props : Props)
  : list element :=
  flat_map
    (fun item =>
       match DocSidebarItem item props with
       | Some e => [e]
       | None => []
       end)
    its.

(** ** Version dropdown *)

Module Ver.
(** An entry of [siteConfig.customFields.api_versions]. *)
Record t : Type := mk {
  version : string;
  label : string;
  to : string
}.
End Ver.

(** What the hooks of the dropdown read: [useWindowSize()], the browser's
    [window.location.pathname] ([None] when [typeof window] is
    ["undefined"]) and the configured versions. *)
Record Ambient : Type := mkAmbient {
  windowSize : string;
  location_pathname : option string;
  api_versions : list Ver.t
}.

Section VersionDropdown.
Context {C : Collaborators}.

Definition desktopEntry (item : SidebarItem) (v : Ver.t) : element :=
  Host "li" noAttrs
    [LinkEl
       (mkAttrs
          (Some ("dropdown__link " ++
                 (if label item =? Ver.version v
                  then "dropdown__link--active" else "")))
          (Some (Ver.to v)) None None false false)
       [Text (Ver.label v)]].

(** [typeof window !== "undefined" &&
     window.location.pathname.split("/")[2] == useBaseUrl(Ver.to).split("/")[2]] *)
Definition isCurrentVersion (amb : Ambient) (v : Ver.t) : bool :=
  match location_pathname amb with
  | None => false
  | Some pathname =>
      looseEq (index (split "/"%char pathname) 2)
              (index (split "/"%char (useBaseUrl (Ver.to v))) 2)
  end.

Definition mobileButton (amb : Ambient) (v : Ver.t) : element :=
  LinkEl
    (mkAttrs
       (Some ("button button--outline button--secondary button--md " ++
              (if isCurrentVersion amb v
               then "button--active--tab shadow--lw" else "")))
       (Some (useBaseUrl (Ver.to v))) None None false false)
    [Text (Ver.label v)].

Definition DocSidebarVersionDropdown (item : SidebarItem) (props : Props)
  (amb : Ambient) : element :=
  if negb (windowSize amb =? "mobile") then
    Host "nav" (classed "navbar navbar--fixed-top navbar--dark")
      [Host "div" (classed "navbar__inner")
         [Host "div" (classed "navbar__items")
            [Host "div" (classed "navbar__item dropdown dropdown--hoverable")
               [Host "a" (classed "navbar__link")
                  [Text "Select API Version: ";
                   Host "b" noAttrs [Text (label item); Text " ▼"]];
                Host "ul" (classed "dropdown__menu")
                  (map (desktopEntry item) (api_versions amb))]]]]
  else
    Host "div" noAttrs (map (mobileButton amb) (api_versions amb)).

End VersionDropdown.

(** ** Link *)

Section Link.
Context {C : Collaborators}.

(** [var method = "noop"; if (customProps) { method = customProps.method; }] *)
Definition linkMethod (item : SidebarItem) : jsval :=
  if truthy (customProps item)
  then getProp (customProps item) "method"
  else JStr "noop".

Definition DocSidebarItemLink (item : SidebarItem) (props : Props) : element :=
  let isActive := isActiveSidebarItem item (activePath props) in
  let method := linkMethod item in
  let internal := isInternalUrl (href item) in
  Host "li" (classed "menu__list-item")
    [LinkEl
       (mkAttrs
          (Some (clsx [JStr "menu__link"; method;
                       objectLiteral [("menu__link--active", JBool isActive)]]))
          (Some (href item))
          (if internal then Some OnItemClick else None)
          (tabIndex props)
          internal
          internal)
       [if internal then Text (label item)
        else Host "span" noAttrs [Text (label item); IconExternalLinkEl]]].

End Link.

(** ** Category *)

(** Modelled from the spec: the hooks a category uses come from React and
    theme-common, not from this file; this record is the state they keep
    for one mounted category.  [useCollapsible] holds the [collapsed] flag
    ([setCollapsed] stores a value, [toggleCollapsed] negates it);
    [usePrevious] is the "previous value" tracker: it returns the value of
    its argument at the previous render ([None], that is [undefined], at
    the first one) and records the current one when the render commits;
    [useEffect] runs its body after a commit when a dependency differs
    from the previous commit's, and at the first commit. *)
Record CategoryHooks : Type := mkHooks {
  collapsed_state : bool;
  previous_isActive : option bool;
  effect_deps : option (bool * option bool * bool)
}.

Definition sameDeps (d1 d2 : bool * option bool * bool) : bool :=
  let '(a1, w1, c1) := d1 in
  let '(a2, w2, c2) := d2 in
  Bool.eqb a1 a2
  && match w1, w2 with
     | Some x, Some y => Bool.eqb x y
     | None, None => true
     | _, _ => false
     end
  && Bool.eqb c1 c2.

Definition depsChanged (last : option (bool * option bool * bool))
  (deps : bool * option bool * bool) : bool :=
  match last with
  | None => true
  | Some d => negb (sameDeps d deps)
  end.

(** The body of the effect of [useAutoExpandActiveCategory]: the argument
    of [setCollapsed] when it is called. *)
Definition autoExpandEffect (isActive : bool) (wasActive : option bool)
  (collapsed : bool) : option bool :=
  let justBecameActive :=
    isActive && negb (match wasActive with Some b => b | None => false end) in
  if justBecameActive && collapsed then Some false else None.

Section Category.
Context {C : Collaborators}.

(** The [initialState] closure given to [useCollapsible]. *)
Definition initialState (item : SidebarItem) (isActive : bool) : bool :=
  if negb (collapsible item) then false
  else if isActive then false else collapsed item.

(** The JSX [DocSidebarItemCategory] returns for a value of [collapsed]. *)
Definition categoryView (item : SidebarItem) (props : Props)
  (collapsed : bool) : element :=
  let isActive := isActiveSidebarItem item (activePath props) in
  let collapsible := collapsible item in
  Host "li"
    (classed (clsx [JStr "menu__list-item";
                    objectLiteral
                      [("menu__list-item--collapsed", JBool collapsed)]]))
    [Host "a"
       (mkAttrs
          (Some (clsx [JStr "menu__link";
                       objectLiteral
                         [("menu__link--sublist", JBool collapsible);
                          ("menu__link--active", JBool (collapsible && isActive));
                          (styles_menuLinkText, JBool (negb collapsible))]]))
          (if collapsible then Some "#" else None)
          (if collapsible then Some PreventDefaultAndToggle else None)
          (tabIndex props)
          false false)
       [Text (label item)];
     CollapsibleEl true "ul" "menu__list" collapsed
       [DocSidebarItemsEl (items item)
          (mkProps (activePath props)
                   (Some (if collapsed then (-1)%Z else 0%Z)))]].

Definition DocSidebarItemCategory (item : SidebarItem) (props : Props)
  (h : CategoryHooks) : element :=
  categoryView item props (collapsed_state h).

(** The header anchor of a rendered category. *)
Definition headerOf (view : element) : option element :=
  match view with
  | Host _ _ (a :: _) => Some a
  | _ => None
  end.

(** [useAutoExpandActiveCategory({ isActive, collapsed, setCollapsed })]
    over one render and its commit: [usePrevious] hands out the recorded
    activity and records the new one, the effect runs when one of
    [isActive, wasActive, collapsed] changed.  The result carries the
    argument of [setCollapsed] when the effect called it. *)
Definition useAutoExpandActiveCategory (isActive collapsed : bool)
  (h : CategoryHooks) : CategoryHooks * option bool :=
  let wasActive := previous_isActive h in
  let deps := (isActive, wasActive, collapsed) in
  (mkHooks (collapsed_state h) (Some isActive) (Some deps),
   if depsChanged (effect_deps h) deps
   then autoExpandEffect isActive wasActive collapsed
   else None).

Definition setCollapsed (c : bool) (h : CategoryHooks) : CategoryHooks :=
  mkHooks c (previous_isActive h) (effect_deps h).

Definition toggleCollapsed (h : CategoryHooks) : CategoryHooks :=
  setCollapsed (negb (collapsed_state h)) h.

(** One render of the category followed by its commit.  The flag tells
    whether the effect stored a new [collapsed], which makes React render
    again. *)
Definition renderPass (item : SidebarItem) (props : Props)
  (h : CategoryHooks) : CategoryHooks * bool :=
  let isActive := isActiveSidebarItem item (activePath props) in
  let collapsed := collapsed_state h in
  let (h', stored) := useAutoExpandActiveCategory isActive collapsed h in
  match stored with
  | Some c => (setCollapsed c h', negb (Bool.eqb c collapsed))
  | None => (h', false)
  end.

(** Render until no state update is pending.  The effect only ever
    stores [false] over [true], so the pass after it stores nothing
    (lemma [renderPass_settles]) and two passes are the whole loop. *)
Definition renderLoop (item : SidebarItem) (props : Props)
  (h : CategoryHooks) : CategoryHooks :=
  let (h1, again) := renderPass item props h in
  if again then fst (renderPass item props h1) else h1.

(** A mounted category: its current props and hook state. *)
Record Mounted : Type := mkMounted {
  m_props : Props;
  m_hooks : CategoryHooks
}.

(** First render: [useState] evaluates [initialState], no previous
    value, no previous dependencies. *)
Definition mount (item : SidebarItem) (props : Props) : Mounted :=
  let isActive := isActiveSidebarItem item (activePath props) in
  mkMounted props
    (renderLoop item props (mkHooks (initialState item isActive) None None)).

(** What happens to a mounted category: its parent renders it again
    (navigation changes [activePath]), or the user clicks its header. *)
Inductive event : Type :=
| Rerender (props' : Props)
| ClickHeader.

Definition handle (item : SidebarItem) (m : Mounted) (ev : event) : Mounted :=
  match ev with
  | Rerender props' => mkMounted props' (renderLoop item props' (m_hooks m))
  | ClickHeader =>
      match option_map (fun a => onClick (attrsOf a))
              (headerOf (DocSidebarItemCategory item (m_props m) (m_hooks m))) with
      | Some (Some PreventDefaultAndToggle) =>
          mkMounted (m_props m)
            (renderLoop item (m_props m) (toggleCollapsed (m_hooks m)))
      | _ => m
      end
  end.

Definition run (item : SidebarItem) (props : Props) (evs : list event)
  : Mounted :=
  fold_left (handle item) evs (mount item props).

(** The states a category can be in: mounted, then any events. *)
Inductive reachable (item : SidebarItem) : Mounted -> Prop :=
| reach_mount props : reachable item (mount item props)
| reach_handle m ev : reachable item m -> reachable item (handle item m ev).

Definition isCollapsed (m : Mounted) : bool := collapsed_state (m_hooks m).

Definition isActiveNow (item : SidebarItem) (m : Mounted) : bool :=
  isActiveSidebarItem item (activePath (m_props m)).

(** What the hooks remember between events: the activity of the last
    render, as the previous value and as the first dependency. *)
Definition settled (item : SidebarItem) (m : Mounted) : Prop :=
  previous_isActive (m_hooks m) = Some (isActiveNow item m)
  /\ exists w c, effect_deps (m_hooks m) = Some (isActiveNow item m, w, c).

End Category.

(** ** Notions of the specification *)

(** A link reachable by descending through the items of a category: one
    of its items, or a link reachable under one of its sub-categories. *)
Inductive linkUnder : SidebarItem -> SidebarItem -> Prop :=
| under_item c l :
    In l (items c) -> type l = "link" -> linkUnder c l
| under_category c sub l :
    In sub (items c) -> type sub = "category" -> linkUnder sub l ->
    linkUnder c l.

(** A site-relative absolute path starts with a slash. *)
Definition siteRelative (path : string) : Prop :=
  exists rest, path = String "/"%char rest.

(** The segments of a site-relative path are the pieces between its
    slashes, after the leading one; the second segment may be missing. *)
Definition pathSegments (path : string) : list string :=
  match path with
  | String c rest => if Ascii.eqb c "/"%char then split "/"%char rest
                     else split "/"%char path
  | EmptyString => split "/"%char path
  end.

Definition secondPathSegment (path : string) : option string :=
  nth_error (pathSegments path) 1.

(** ** Sample data *)

Module Sample.

(** Paths compared literally, site-relative URLs internal, a site
    served from the root. *)
#[export] Instance collaborators : Collaborators := {|
  isSamePath := String.eqb;
  isInternalUrl := fun url => prefix "/" url;
  useBaseUrl := fun url => url;
  styles_menuLinkText := "menuLinkText_OKON"
|}.

Definition link (lb hr : string) (cp : jsval) : SidebarItem :=
  mkItem "link" lb hr [] true false cp.

Definition category (lb : string) (its : list SidebarItem)
  (cb cd : bool) : SidebarItem :=
  mkItem "category" lb "" its cb cd JUndefined.

Definition props (path : string) : Props := mkProps path None.

Definition docA : SidebarItem := link "A" "/docs/a" JUndefined.
Definition docB : SidebarItem := link "B" "/docs/b" JUndefined.

Definition guides : SidebarItem :=
  category "Guides" [docB; category "Deep" [docA] true true] true true.

Definition fixedGroup : SidebarItem :=
  category "Reference" [docA] false true.

Definition emptyGroup : SidebarItem := category "Empty" [] true false.

Definition versionedObject : SidebarItem :=
  link "v1.0" "/api/v1" (JObj [("method", JStr "versioned")]).

Definition versionedMarker : SidebarItem :=
  link "v1.0" "/api/v1" (JStr "versioned").

Definition htmlItem : SidebarItem :=
  mkItem "html" "Raw" "/raw" [] false false JUndefined.

Definition versions : list Ver.t :=
  [Ver.mk "v1" "Version 1" "/api/v1/intro";
   Ver.mk "v2" "Version 2" "/api/v2/intro"].

Definition phone : Ambient :=
  mkAmbient "mobile" (Some "/api/v2/accounts/list") versions.

End Sample.

(** ** Reading rendered elements *)

(** [item.type === "category" && item.items.length === 0], the test that
    makes the dispatcher return [null]. *)
Definition isEmptyCategory (item : SidebarItem) : bool :=
  (type item =? "category") && Nat.eqb (length (items item)) 0.

(** The item and props an element of one of this file's components was
    created with. *)
Definition elementOf (e : element) : option (SidebarItem * Props) :=
  match e with
  | DocSidebarItemEl item p
  | DocSidebarItemCategoryEl item p
  | DocSidebarVersionDropdownEl item p
  | DocSidebarItemLinkEl item p => Some (item, p)
  | _ => None
  end.

Definition childrenOf (e : element) : list element :=
  match e with
  | Host _ _ children | LinkEl _ children => children
  | CollapsibleEl _ _ _ _ children => children
  | _ => []
  end.

(** The single child of an element: the [Link] inside an [li]. *)
Definition onlyChild (e : element) : option element :=
  match childrenOf e with
  | [child] => Some child
  | _ => None
  end.

(** The [li] entries of the desktop dropdown:
    a [nav] around three nested [div]s, the innermost holding the
    toggle [a] and the [ul] of entries. *)
Definition dropdownMenu (view : element) : option (list element) :=
  match view with
  | Host _ _ [Host _ _ [Host _ _ [Host _ _ [_; Host _ _ entries]]]] =>
      Some entries
  | _ => None
  end.

(** The [className] of the [Link] inside a rendered link item. *)
Definition linkClassOf (li : element) : option string :=
  match onlyChild li with
  | Some a => className (attrsOf a)
  | None => None
  end.

Definition hasClass (c : string) (e : element) : bool :=
  existsb (String.eqb c) (classesOf e).

(** The [Collapsible] of a rendered category, and the props it passes to
    the nested [DocSidebarItems]. *)
Definition collapsibleOf (view : element) : option element :=
  match view with
  | Host _ _ [_; box] => Some box
  | _ => None
  end.

Definition nestedItems (box : element)
  : option (bool * list SidebarItem * Props) :=
  match box with
  | CollapsibleEl _ _ _ isCollapsed [DocSidebarItemsEl its p] =>
      Some (isCollapsed, its, p)
  | _ => None
  end.

Definition isRerender (ev : event) : bool :=
  match ev with
  | Rerender _ => true
  | ClickHeader => false
  end.

(** The hook state at the first render of a category: [useState] has
    just evaluated [initialState], nothing has been committed yet. *)
Definition initialHooks {C : Collaborators} (item : SidebarItem)
  (props : Props) : CategoryHooks :=
  mkHooks (initialState item (isActiveSidebarItem item (activePath props)))
    None None.

(** A re-render whose props keep the category active. *)
Definition keepsActive {C : Collaborators} (item : SidebarItem)
  (ev : event) : bool :=
  match ev with
  | Rerender props' => isActiveSidebarItem item (activePath props')
  | ClickHeader => false
  end.

(** One step of React on an element returned by the list renderer: a
    [DocSidebarItem] element is replaced by what the dispatcher returns
    for it, by nothing when that is [null]. *)
Definition renderElement (e : element) : list element :=
  match e with
  | DocSidebarItemEl item p =>
      match DocSidebarItem item p with
      | Some e' => [e']
      | None => []
      end
  | _ => [e]
  end.

(** * Properties *)

(** ** The active-path matcher *)

Section MatcherFacts.
Context {C : Collaborators}.

Lemma isActiveSidebarItem_eq item path :
  isActiveSidebarItem item path =
  if type item =? "link" then isSamePath (href item) path
  else if type item =? "category" then
    existsb (fun subItem => isActiveSidebarItem subItem path) (items item)
  else false.
Proof. destruct item; reflexivity. Qed.

Lemma isActive_link item path :
  type item = "link" ->
  isActiveSidebarItem item path = isSamePath (href item) path.
Proof.
  intros Hty. rewrite isActiveSidebarItem_eq, Hty. reflexivity.
Qed.

Lemma isActive_category item path :
  type item = "category" ->
  isActiveSidebarItem item path =
  existsb (fun subItem => isActiveSidebarItem subItem path) (items item).
Proof.
  intros Hty. rewrite isActiveSidebarItem_eq, Hty. reflexivity.
Qed.

Lemma linkUnder_active path c l :
  linkUnder c l ->
  type c = "category" ->
  isSamePath (href l) path = true ->
  isActiveSidebarItem c path = true.
Proof.
  induction 1 as [c l Hin Hlink | c sub l Hin Hsub _ IH]; intros Hc Hsame;
    rewrite (isActive_category _ _ Hc); apply existsb_exists.
  - exists l. split; [exact Hin |].
    rewrite (isActive_link _ _ Hlink). exact Hsame.
  - exists sub. split; [exact Hin | exact (IH Hsub Hsame)].
Qed.

Lemma active_linkUnder path c :
  type c = "category" ->
  isActiveSidebarItem c path = true ->
  exists l, linkUnder c l /\ isSamePath (href l) path = true.
Proof.
  induction c as [ty lb hr its cb cd cp IH] using SidebarItem_tree_ind.
  intros Hc Hact.
  rewrite (isActive_category _ _ Hc) in Hact.
  apply existsb_exists in Hact as [x [Hin Hx]]. cbn [items] in Hin.
  rewrite Forall_forall in IH. specialize (IH x Hin).
  rewrite isActiveSidebarItem_eq in Hx.
  destruct (type x =? "link") eqn:Hlink.
  - apply String.eqb_eq in Hlink.
    exists x. split; [apply under_item; assumption | exact Hx].
  - destruct (type x =? "category") eqn:Hcat; [| discriminate].
    apply String.eqb_eq in Hcat.
    rewrite <- (isActive_category _ _ Hcat) in Hx.
    destruct (IH Hcat Hx) as [l [Hl Hsame]].
    exists l. split; [| exact Hsame].
    eapply under_category; eauto.
Qed.

(** C2: on a category the matcher answers true exactly when the active
    path matches, under [isSamePath], the href of a link reachable by
    descending through the category's items; on a link it answers
    whether the link's own href matches. *)
Theorem isActiveSidebarItem_reachable_link (item : SidebarItem) (path : string) :
  (type item = "category" ->
   (isActiveSidebarItem item path = true <->
    exists l, linkUnder item l /\ isSamePath (href l) path = true))
  /\ (type item = "link" ->
      (isActiveSidebarItem item path = true <->
       isSamePath (href item) path = true)).
Proof.
  split; intros Hty.
  - split.
    + apply active_linkUnder; exact Hty.
    + intros [l [Hl Hsame]]. eapply linkUnder_active; eauto.
  - rewrite (isActive_link _ _ Hty). reflexivity.
Qed.

End MatcherFacts.

Lemma isActiveSidebarItem_reachable_link_witness :
  (isActiveSidebarItem (C := Sample.collaborators) Sample.guides "/docs/a" = true
   <-> exists l, linkUnder Sample.guides l
                 /\ isSamePath (Collaborators := Sample.collaborators)
                      (href l) "/docs/a" = true)
  /\ (isActiveSidebarItem (C := Sample.collaborators) Sample.docA "/docs/a" = true
      <-> isSamePath (Collaborators := Sample.collaborators)
            (href Sample.docA) "/docs/a" = true).
Proof.
  split.
  - apply (proj1 (isActiveSidebarItem_reachable_link
                    (C := Sample.collaborators) Sample.guides "/docs/a")).
    reflexivity.
  - apply (proj2 (isActiveSidebarItem_reachable_link
                    (C := Sample.collaborators) Sample.docA "/docs/a")).
    reflexivity.
Defined.

(** ** The dispatcher *)

(** C1 as stated fails: a link whose [customProps] is a map with [method]
    equal to ["versioned"] goes to the ordinary Link renderer. *)
Lemma versioned_method_renders_as_link :
  type Sample.versionedObject = "link"
  /\ getProp (customProps Sample.versionedObject) "method" = JStr "versioned"
  /\ DocSidebarItem Sample.versionedObject (Sample.props "/api/v1")
     = Some (DocSidebarItemLinkEl Sample.versionedObject (Sample.props "/api/v1"))
  /\ DocSidebarItem Sample.versionedObject (Sample.props "/api/v1")
     <> Some (DocSidebarVersionDropdownEl Sample.versionedObject
                (Sample.props "/api/v1")).
Proof.
  repeat split; try reflexivity. discriminate.
Qed.

Lemma strictEqString_true v lit :
  strictEqString v lit = true <-> v = JStr lit.
Proof.
  destruct v; cbn; split; try discriminate.
  - intros H. apply String.eqb_eq in H. now subst.
  - intros H. injection H as ->. apply String.eqb_refl.
Qed.

(** C1 (amended): a link is handed to the version dropdown exactly when
    its [customProps] is itself the string ["versioned"]. *)
Theorem versioned_marker_dispatch (item : SidebarItem) (props : Props) :
  type item = "link" ->
  (DocSidebarItem item props = Some (DocSidebarVersionDropdownEl item props)
   <-> customProps item = JStr "versioned").
Proof.
  intros Hty. unfold DocSidebarItem. rewrite Hty. cbn.
  rewrite <- strictEqString_true.
  destruct (strictEqString (customProps item) "versioned").
  - split; reflexivity.
  - split; discriminate.
Qed.

Lemma versioned_marker_dispatch_witness :
  DocSidebarItem Sample.versionedMarker (Sample.props "/api/v1")
  = Some (DocSidebarVersionDropdownEl Sample.versionedMarker
            (Sample.props "/api/v1")).
Proof.
  apply (proj2 (versioned_marker_dispatch Sample.versionedMarker
                  (Sample.props "/api/v1") eq_refl)).
  reflexivity.
Defined.

(** C6: a category whose [items] is empty renders nothing, whatever its
    other fields and the props, and leaves no element among its
    siblings. *)
Theorem empty_category_renders_nothing (item : SidebarItem) (props : Props) :
  type item = "category" ->
  items item = [] ->
  DocSidebarItem item props = None
  /\ forall before after,
       renderedItems (before ++ item :: after) props
       = renderedItems (before ++ after) props.
Proof.
  intros Hty Hitems.
  assert (Hnone : DocSidebarItem item props = None).
  { unfold DocSidebarItem. rewrite Hty, Hitems. reflexivity. }
  split; [exact Hnone |].
  intros before after. unfold renderedItems.
  rewrite !flat_map_app. cbn [flat_map]. rewrite Hnone. reflexivity.
Qed.

Lemma empty_category_renders_nothing_witness :
  DocSidebarItem Sample.emptyGroup (Sample.props "/docs/a") = None
  /\ forall before after,
       renderedItems (before ++ Sample.emptyGroup :: after) (Sample.props "/docs/a")
       = renderedItems (before ++ after) (Sample.props "/docs/a").
Proof.
  apply (empty_category_renders_nothing Sample.emptyGroup
           (Sample.props "/docs/a")); reflexivity.
Defined.

(** C8: an item whose [type] is neither ["category"] nor ["link"] is
    rendered by the Link renderer. *)
Theorem unknown_type_renders_as_link (item : SidebarItem) (props : Props) :
  type item <> "category" ->
  type item <> "link" ->
  DocSidebarItem item props = Some (DocSidebarItemLinkEl item props).
Proof.
  intros Hcat Hlink. unfold DocSidebarItem.
  apply String.eqb_neq in Hcat, Hlink. rewrite Hcat, Hlink. reflexivity.
Qed.

Lemma unknown_type_renders_as_link_witness :
  DocSidebarItem Sample.htmlItem (Sample.props "/raw")
  = Some (DocSidebarItemLinkEl Sample.htmlItem (Sample.props "/raw")).
Proof.
  apply (unknown_type_renders_as_link Sample.htmlItem (Sample.props "/raw"));
    discriminate.
Defined.

(** ** The link renderer *)

Section LinkFacts.
Context {C : Collaborators}.

(** C7: a link without [customProps] gets the method ["noop"], and
    ["noop"] stands in the class list where a method tag would. *)
Theorem missing_customProps_is_noop (item : SidebarItem) (props : Props) :
  customProps item = JUndefined ->
  linkMethod item = JStr "noop"
  /\ exists a kids,
       DocSidebarItemLink item props
       = Host "li" (classed "menu__list-item") [LinkEl a kids]
       /\ className a
          = Some (if isActiveSidebarItem item (activePath props)
                  then "menu__link noop menu__link--active"
                  else "menu__link noop")
       /\ In "noop" (classesOf (LinkEl a kids)).
Proof.
  intros Hcp. unfold DocSidebarItemLink, linkMethod. rewrite Hcp. cbn.
  split; [reflexivity |].
  do 2 eexists. split; [reflexivity |].
  destruct (isActiveSidebarItem item (activePath props)); cbn;
    (split; [reflexivity | tauto]).
Qed.

End LinkFacts.

Lemma missing_customProps_is_noop_witness :
  customProps Sample.docA = JUndefined
  /\ linkMethod Sample.docA = JStr "noop".
Proof.
  split; [reflexivity |].
  apply (missing_customProps_is_noop (C := Sample.collaborators)
           Sample.docA (Sample.props "/docs/a")).
  reflexivity.
Defined.

(** ** The version dropdown *)

Lemma looseEq_eq (a b : option string) : looseEq a b = true <-> a = b.
Proof.
  destruct a as [x |], b as [y |]; cbn; split; try discriminate; try reflexivity.
  - intros H. apply String.eqb_eq in H. now subst.
  - intros H. injection H as ->. apply String.eqb_refl.
Qed.

(** On a site-relative path, [split("/")[2]] is the second segment. *)
Lemma split_second_segment (path : string) :
  siteRelative path ->
  index (split "/"%char path) 2 = secondPathSegment path.
Proof.
  intros [rest ->]. reflexivity.
Qed.

Lemma mobile_active_classes :
  In "button--active--tab"
     (classList ("button button--outline button--secondary button--md "
                 ++ "button--active--tab shadow--lw")).
Proof. vm_compute. tauto. Qed.

Lemma mobile_inactive_classes :
  ~ In "button--active--tab"
      (classList ("button button--outline button--secondary button--md " ++ "")).
Proof. vm_compute. intuition discriminate. Qed.

Section VersionDropdownFacts.
Context {C : Collaborators}.

(** The mobile branch as the code computes it: one button per version,
    in order, active exactly when the third piece of each split is the
    same (or missing on both sides). *)
Lemma mobile_buttons_by_split item props amb pathname :
  windowSize amb = "mobile" ->
  location_pathname amb = Some pathname ->
  DocSidebarVersionDropdown item props amb
  = Host "div" noAttrs (map (mobileButton amb) (api_versions amb))
  /\ forall v,
       target (attrsOf (mobileButton amb v)) = Some (useBaseUrl (Ver.to v))
       /\ (In "button--active--tab" (classesOf (mobileButton amb v))
           <-> index (split "/"%char pathname) 2
               = index (split "/"%char (useBaseUrl (Ver.to v))) 2).
Proof.
  intros Hmobile Hloc. split.
  - unfold DocSidebarVersionDropdown. rewrite Hmobile. reflexivity.
  - intros v. split; [reflexivity |].
    unfold classesOf, mobileButton, isCurrentVersion. rewrite Hloc.
    cbn [attrsOf className].
    rewrite <- looseEq_eq.
    destruct (looseEq _ _).
    + split; [reflexivity | intros _; exact mobile_active_classes].
    + split; [| discriminate].
      intros H. destruct (mobile_inactive_classes H).
Qed.

(** C9: in the mobile branch every version gets a button, and a button
    is marked active exactly when the second path segment of the
    browser location equals the second path segment of the version's
    resolved target path. *)
Theorem mobile_button_active_iff_second_segment item props amb pathname :
  windowSize amb = "mobile" ->
  location_pathname amb = Some pathname ->
  siteRelative pathname ->
  Forall (fun v => siteRelative (useBaseUrl (Ver.to v))) (api_versions amb) ->
  exists buttons,
    DocSidebarVersionDropdown item props amb = Host "div" noAttrs buttons
    /\ length buttons = length (api_versions amb)
    /\ forall i v,
         nth_error (api_versions amb) i = Some v ->
         exists b,
           nth_error buttons i = Some b
           /\ target (attrsOf b) = Some (useBaseUrl (Ver.to v))
           /\ (In "button--active--tab" (classesOf b)
               <-> secondPathSegment pathname
                   = secondPathSegment (useBaseUrl (Ver.to v))).
Proof.
  intros Hmobile Hloc Hpath Hurls.
  destruct (mobile_buttons_by_split item props amb pathname Hmobile Hloc)
    as [Hview Hbutton].
  exists (map (mobileButton amb) (api_versions amb)).
  split; [exact Hview |]. split; [apply length_map |].
  intros i v Hv. exists (mobileButton amb v).
  split; [apply map_nth_error; exact Hv |].
  destruct (Hbutton v) as [Hto Hactive]. split; [exact Hto |].
  rewrite Forall_forall in Hurls.
  rewrite <- (split_second_segment pathname Hpath).
  rewrite <- (split_second_segment (useBaseUrl (Ver.to v))
                (Hurls v (nth_error_In _ _ Hv))).
  exact Hactive.
Qed.

End VersionDropdownFacts.

Lemma mobile_button_active_iff_second_segment_witness :
  windowSize Sample.phone = "mobile"
  /\ exists buttons,
       DocSidebarVersionDropdown (C := Sample.collaborators)
         Sample.versionedMarker (Sample.props "/api/v2/accounts/list") Sample.phone
       = Host "div" noAttrs buttons
       /\ length buttons = length (api_versions Sample.phone)
       /\ forall i v,
            nth_error (api_versions Sample.phone) i = Some v ->
            exists b,
              nth_error buttons i = Some b
              /\ target (attrsOf b)
                 = Some (useBaseUrl (Collaborators := Sample.collaborators) (Ver.to v))
              /\ (In "button--active--tab" (classesOf b)
                  <-> secondPathSegment "/api/v2/accounts/list"
                      = secondPathSegment
                          (useBaseUrl (Collaborators := Sample.collaborators)
                             (Ver.to v))).
Proof.
  split; [reflexivity |].
  apply (mobile_button_active_iff_second_segment (C := Sample.collaborators)
           Sample.versionedMarker (Sample.props "/api/v2/accounts/list")
           Sample.phone "/api/v2/accounts/list").
  - reflexivity.
  - reflexivity.
  - eexists; reflexivity.
  - repeat constructor; eexists; reflexivity.
Defined.

(** ** The category *)

Section CategoryFacts.
Context {C : Collaborators}.

(** The effect stores nothing when the category was already active at
    the previous render. *)
Lemma autoExpandEffect_no_edge isActive collapsed :
  autoExpandEffect isActive (Some isActive) collapsed = None.
Proof. destruct isActive, collapsed; reflexivity. Qed.

Lemma renderPass_previous item props h :
  previous_isActive (fst (renderPass item props h))
  = Some (isActiveSidebarItem item (activePath props)).
Proof.
  unfold renderPass, useAutoExpandActiveCategory.
  destruct (depsChanged _ _); [destruct (autoExpandEffect _ _ _) |];
    reflexivity.
Qed.

Lemma renderPass_deps item props h :
  exists w c,
    effect_deps (fst (renderPass item props h))
    = Some (isActiveSidebarItem item (activePath props), w, c).
Proof.
  unfold renderPass, useAutoExpandActiveCategory.
  destruct (depsChanged _ _); [destruct (autoExpandEffect _ _ _) |];
    do 2 eexists; reflexivity.
Qed.

(** A pass that starts from the value recorded for the same activity
    changes nothing but the recorded dependencies. *)
Lemma renderPass_steady item props h :
  previous_isActive h = Some (isActiveSidebarItem item (activePath props)) ->
  collapsed_state (fst (renderPass item props h)) = collapsed_state h
  /\ snd (renderPass item props h) = false.
Proof.
  intros Hprev. unfold renderPass, useAutoExpandActiveCategory.
  rewrite Hprev, autoExpandEffect_no_edge.
  destruct (depsChanged _ _); cbn; auto.
Qed.

(** The render loop has ended after two passes: the pass that follows a
    state update never asks for another one. *)
Lemma renderPass_settles item props h :
  snd (renderPass item props (fst (renderPass item props h))) = false.
Proof.
  apply renderPass_steady, renderPass_previous.
Qed.

Lemma renderLoop_quiescent item props h :
  snd (renderPass item props (renderLoop item props h)) = false.
Proof.
  unfold renderLoop.
  destruct (renderPass item props h) as [h1 again] eqn:Hpass.
  assert (Hprev : previous_isActive h1
                  = Some (isActiveSidebarItem item (activePath props))).
  { change h1 with (fst (h1, again)). rewrite <- Hpass.
    apply renderPass_previous. }
  destruct again.
  - apply renderPass_settles.
  - apply renderPass_steady, Hprev.
Qed.

Lemma renderLoop_previous item props h :
  previous_isActive (renderLoop item props h)
  = Some (isActiveSidebarItem item (activePath props)).
Proof.
  unfold renderLoop.
  destruct (renderPass item props h) as [h1 again] eqn:Hpass.
  destruct again; [apply renderPass_previous |].
  change h1 with (fst (h1, false)). rewrite <- Hpass.
  apply renderPass_previous.
Qed.

Lemma renderLoop_deps item props h :
  exists w c,
    effect_deps (renderLoop item props h)
    = Some (isActiveSidebarItem item (activePath props), w, c).
Proof.
  unfold renderLoop.
  destruct (renderPass item props h) as [h1 again] eqn:Hpass.
  destruct again; [apply renderPass_deps |].
  change h1 with (fst (h1, false)). rewrite <- Hpass.
  apply renderPass_deps.
Qed.

(** Rendering again with the same activity leaves [collapsed] alone. *)
Lemma renderLoop_steady item props h :
  previous_isActive h = Some (isActiveSidebarItem item (activePath props)) ->
  collapsed_state (renderLoop item props h) = collapsed_state h.
Proof.
  intros Hprev. unfold renderLoop.
  destruct (renderPass_steady item props h Hprev) as [Hc Hagain].
  destruct (renderPass item props h) as [h1 again]. cbn in Hc, Hagain.
  subst again. exact Hc.
Qed.

Lemma handle_click item m :
  handle item m ClickHeader
  = if collapsible item
    then mkMounted (m_props m)
           (renderLoop item (m_props m) (toggleCollapsed (m_hooks m)))
    else m.
Proof.
  unfold handle, DocSidebarItemCategory, categoryView. cbn.
  destruct (collapsible item); reflexivity.
Qed.

Lemma reachable_settled item m : reachable item m -> settled item m.
Proof.
  induction 1 as [props | m ev _ IH].
  - split; [apply renderLoop_previous | apply renderLoop_deps].
  - destruct ev as [props' |].
    + split; [apply renderLoop_previous | apply renderLoop_deps].
    + rewrite handle_click. destruct (collapsible item); [| exact IH].
      split; [apply renderLoop_previous | apply renderLoop_deps].
Qed.

Lemma click_flips item m :
  collapsible item = true ->
  reachable item m ->
  isCollapsed (handle item m ClickHeader) = negb (isCollapsed m).
Proof.
  intros Hc Hreach. destruct (reachable_settled item m Hreach) as [Hprev _].
  rewrite handle_click, Hc. unfold isCollapsed. cbn [m_hooks].
  rewrite renderLoop_steady; [reflexivity | exact Hprev].
Qed.

Lemma click_keeps_props item m :
  m_props (handle item m ClickHeader) = m_props m.
Proof.
  rewrite handle_click. destruct (collapsible item); reflexivity.
Qed.

Lemma run_reachable item props evs : reachable item (run item props evs).
Proof.
  unfold run. generalize (reach_mount item props).
  generalize (mount item props).
  induction evs as [| ev evs IH]; intros m Hm; cbn; [exact Hm |].
  apply IH. constructor. exact Hm.
Qed.

End CategoryFacts.

Section CategoryBehaviour.
Context {C : Collaborators}.

Lemma initialState_active item : initialState item true = false.
Proof. unfold initialState. destruct (collapsible item); reflexivity. Qed.

Lemma mount_collapsed item props :
  isCollapsed (mount item props)
  = initialState item (isActiveSidebarItem item (activePath props)).
Proof.
  unfold isCollapsed, mount, renderLoop, renderPass,
    useAutoExpandActiveCategory, autoExpandEffect.
  cbn.
  destruct (isActiveSidebarItem item (activePath props)).
  - rewrite initialState_active. reflexivity.
  - reflexivity.
Qed.

Lemma mount_from_initialHooks item props :
  mount item props
  = mkMounted props (renderLoop item props (initialHooks item props)).
Proof. reflexivity. Qed.

(** The effect of the first commit stores nothing: the state chosen by
    [initialState] is never collapsed and active at once. *)
Lemma first_pass_stores_nothing item props :
  renderPass item props (initialHooks item props)
  = (mkHooks (collapsed_state (initialHooks item props))
       (Some (isActiveSidebarItem item (activePath props)))
       (Some (isActiveSidebarItem item (activePath props), None,
              collapsed_state (initialHooks item props))),
     false).
Proof.
  unfold renderPass, useAutoExpandActiveCategory, autoExpandEffect,
    initialHooks.
  cbn.
  destruct (isActiveSidebarItem item (activePath props)).
  - rewrite initialState_active. reflexivity.
  - reflexivity.
Qed.

(** C5: the state a category is first rendered with, as [initialState]
    computes it: expanded when the category is not collapsible;
    otherwise expanded when it contains the active path, and as its
    [collapsed] flag says when it does not.  The first render shows that
    state, the effect of the first commit asks for no other, and it is
    the state of the mounted category. *)
Theorem initial_collapsed_state (item : SidebarItem) (props : Props) :
  (collapsible item = false ->
   collapsed_state (initialHooks item props) = false)
  /\ (collapsible item = true ->
      isActiveSidebarItem item (activePath props) = true ->
      collapsed_state (initialHooks item props) = false)
  /\ (collapsible item = true ->
      isActiveSidebarItem item (activePath props) = false ->
      collapsed_state (initialHooks item props) = collapsed item)
  /\ DocSidebarItemCategory item props (initialHooks item props)
     = categoryView item props
         (initialState item (isActiveSidebarItem item (activePath props)))
  /\ snd (renderPass item props (initialHooks item props)) = false
  /\ isCollapsed (mount item props)
     = collapsed_state (initialHooks item props).
Proof.
  split; [| split; [| split; [| split; [| split]]]].
  - intros Hc. unfold initialHooks, initialState. cbn. rewrite Hc. reflexivity.
  - intros Hc Ha. unfold initialHooks. cbn. rewrite Ha.
    apply initialState_active.
  - intros Hc Ha. unfold initialHooks, initialState. cbn.
    rewrite Hc, Ha. reflexivity.
  - reflexivity.
  - rewrite first_pass_stores_nothing. reflexivity.
  - rewrite mount_from_initialHooks. unfold isCollapsed, renderLoop.
    rewrite first_pass_stores_nothing. reflexivity.
Qed.

(** A render with new props changes [collapsed] only on a rising edge
    of the activity, and then to expanded. *)
Lemma rerender_collapsed item m props' :
  settled item m ->
  isCollapsed (handle item m (Rerender props'))
  = isCollapsed m
    && negb (isActiveSidebarItem item (activePath props')
             && negb (isActiveNow item m)).
Proof.
  intros [Hprev [w [c Hdeps]]].
  unfold isCollapsed, handle. cbn [m_hooks].
  destruct (Bool.eqb (isActiveSidebarItem item (activePath props'))
              (isActiveNow item m)) eqn:Hsame.
  - apply Bool.eqb_prop in Hsame.
    rewrite renderLoop_steady by (rewrite Hprev, Hsame; reflexivity).
    rewrite Hsame. destruct (isActiveNow item m), (collapsed_state (m_hooks m));
      reflexivity.
  - unfold renderLoop, renderPass, useAutoExpandActiveCategory.
    rewrite Hprev, Hdeps.
    destruct (isActiveSidebarItem item (activePath props')) eqn:Hnew,
             (isActiveNow item m) eqn:Hold; try discriminate;
      destruct (collapsed_state (m_hooks m)) eqn:Hcol; cbn;
      rewrite ?Hnew; destruct w as [[|] |], c; reflexivity.
Qed.

(** A collapsed, active category stays collapsed through renders that
    keep it active: the edge that made it active is spent. *)
Lemma collapsed_stays_while_active item evs :
  forall m,
    reachable item m ->
    isActiveNow item m = true ->
    isCollapsed m = true ->
    forallb (keepsActive item) evs = true ->
    isCollapsed (fold_left (handle item) evs m) = true.
Proof.
  induction evs as [| ev evs IH]; intros m Hreach Hact Hcol Hevs;
    cbn [fold_left]; [exact Hcol |].
  cbn [forallb] in Hevs. apply andb_true_iff in Hevs as [Hev Hrest].
  destruct ev as [props' |]; [| discriminate]. cbn [keepsActive] in Hev.
  apply IH; [constructor; exact Hreach | exact Hev | | exact Hrest].
  rewrite (rerender_collapsed item m props' (reachable_settled item m Hreach)).
  rewrite Hcol, Hev, Hact. reflexivity.
Qed.

(** C3: a collapsed category whose matcher goes from false to true at a
    render comes out expanded, with no click; a matcher going from true
    to false leaves the state alone; a render without a rising edge never
    changes it; and the expansion happens once per edge: when the user
    collapses an active category by a click, it is collapsed after the
    click and stays collapsed through every later render that keeps it
    active. *)
Theorem auto_expand_on_rising_edge (item : SidebarItem) (m : Mounted)
  (props' : Props) :
  reachable item m ->
  (isActiveNow item m = false ->
   isActiveSidebarItem item (activePath props') = true ->
   isCollapsed m = true ->
   isCollapsed (handle item m (Rerender props')) = false)
  /\ (isActiveNow item m = true ->
      isActiveSidebarItem item (activePath props') = false ->
      isCollapsed (handle item m (Rerender props')) = isCollapsed m)
  /\ (isActiveNow item m = isActiveSidebarItem item (activePath props') ->
      isCollapsed (handle item m (Rerender props')) = isCollapsed m)
  /\ (collapsible item = true ->
      isActiveNow item m = true ->
      isCollapsed m = false ->
      forall evs,
        forallb (keepsActive item) evs = true ->
        isCollapsed (fold_left (handle item) evs (handle item m ClickHeader))
        = true).
Proof.
  intros Hreach.
  rewrite (rerender_collapsed item m props' (reachable_settled item m Hreach)).
  split; [| split; [| split]].
  - intros Hold Hnew Hcol. rewrite Hold, Hnew, Hcol. reflexivity.
  - intros Hold Hnew. rewrite Hold, Hnew. apply andb_true_r.
  - intros Hsame. rewrite <- Hsame.
    destruct (isActiveNow item m), (isCollapsed m); reflexivity.
  - intros Hc Hact Hopen evs Hevs.
    apply collapsed_stays_while_active; [| | | exact Hevs].
    + constructor. exact Hreach.
    + unfold isActiveNow. rewrite click_keeps_props. exact Hact.
    + rewrite (click_flips item m Hc Hreach), Hopen. reflexivity.
Qed.

(** C4: a click on the header negates [collapsed] when the category is
    collapsible, and changes nothing when it is not. *)
Theorem click_toggles_iff_collapsible (item : SidebarItem) (m : Mounted) :
  reachable item m ->
  (collapsible item = true ->
   isCollapsed (handle item m ClickHeader) = negb (isCollapsed m))
  /\ (collapsible item = false -> handle item m ClickHeader = m).
Proof.
  intros Hreach. destruct (reachable_settled item m Hreach) as [Hprev _].
  rewrite handle_click. split; intros Hc; rewrite Hc; [| reflexivity].
  unfold isCollapsed. cbn [m_hooks].
  rewrite renderLoop_steady; [reflexivity | exact Hprev].
Qed.

(** C10: the header of a category that is not collapsible does not
    carry ["menu__link--active"], whatever the active path, as long as
    the class generated for [styles.menuLinkText] is not that class. *)
Theorem non_collapsible_header_never_active (item : SidebarItem)
  (props : Props) (h : CategoryHooks) :
  collapsible item = false ->
  ~ In "menu__link--active" (classList styles_menuLinkText) ->
  exists header,
    headerOf (DocSidebarItemCategory item props h) = Some header
    /\ ~ In "menu__link--active" (classesOf header).
Proof.
  intros Hc Hcss. unfold DocSidebarItemCategory, categoryView.
  rewrite Hc. cbn [headerOf]. eexists. split; [reflexivity |].
  unfold classesOf. cbn [attrsOf className andb negb].
  destruct (String.eqb_spec "menu__link--sublist" styles_menuLinkText)
    as [Hsub | Hsub].
  { rewrite <- Hsub. vm_compute. intuition discriminate. }
  destruct (String.eqb_spec "menu__link--active" styles_menuLinkText)
    as [Hact | Hact].
  { exfalso. apply Hcss. rewrite <- Hact. vm_compute. tauto. }
  apply String.eqb_neq in Hsub, Hact.
  unfold objectLiteral. cbn [fold_left setField fst snd].
  change ("menu__link--sublist" =? "menu__link--active") with false.
  cbn [setField]. rewrite Hsub, Hact.
  cbn -[classList].
  destruct (styles_menuLinkText =? "").
  - vm_compute. intuition discriminate.
  - unfold classList in *. cbn.
    intros [Heq | Hin]; [discriminate | exact (Hcss Hin)].
Qed.

End CategoryBehaviour.

Lemma initial_collapsed_state_witness :
  (collapsible Sample.guides = true
   /\ isActiveSidebarItem (C := Sample.collaborators) Sample.guides "/docs/a"
      = true
   /\ collapsed Sample.guides = true
   /\ collapsed_state (initialHooks (C := Sample.collaborators) Sample.guides
                         (Sample.props "/docs/a")) = false)
  /\ collapsed_state (initialHooks (C := Sample.collaborators) Sample.guides
                        (Sample.props "/docs/c"))
     = collapsed Sample.guides.
Proof.
  pose proof (initial_collapsed_state (C := Sample.collaborators)
                Sample.guides (Sample.props "/docs/a")) as Hactive.
  pose proof (initial_collapsed_state (C := Sample.collaborators)
                Sample.guides (Sample.props "/docs/c")) as Hidle.
  split.
  - split; [reflexivity |]. split; [reflexivity |]. split; [reflexivity |].
    apply (proj1 (proj2 Hactive)); reflexivity.
  - apply (proj1 (proj2 (proj2 Hidle))); reflexivity.
Defined.

Lemma auto_expand_on_rising_edge_witness :
  (isCollapsed (mount (C := Sample.collaborators) Sample.guides
                  (Sample.props "/docs/c")) = true
   /\ isCollapsed
        (handle (C := Sample.collaborators) Sample.guides
           (mount (C := Sample.collaborators) Sample.guides
              (Sample.props "/docs/c"))
           (Rerender (Sample.props "/docs/a")))
      = false)
  /\ isCollapsed
       (fold_left (handle (C := Sample.collaborators) Sample.guides)
          [Rerender (Sample.props "/docs/a"); Rerender (Sample.props "/docs/b")]
          (handle (C := Sample.collaborators) Sample.guides
             (mount (C := Sample.collaborators) Sample.guides
                (Sample.props "/docs/a"))
             ClickHeader))
     = true.
Proof.
  split.
  - split; [reflexivity |].
    apply (proj1 (auto_expand_on_rising_edge (C := Sample.collaborators)
                    Sample.guides
                    (mount Sample.guides (Sample.props "/docs/c"))
                    (Sample.props "/docs/a")
                    (reach_mount Sample.guides (Sample.props "/docs/c"))));
      reflexivity.
  - apply (proj2 (proj2 (proj2
             (auto_expand_on_rising_edge (C := Sample.collaborators)
                Sample.guides
                (mount Sample.guides (Sample.props "/docs/a"))
                (Sample.props "/docs/a")
                (reach_mount Sample.guides (Sample.props "/docs/a"))))));
      reflexivity.
Defined.

Lemma click_toggles_iff_collapsible_witness :
  collapsible Sample.guides = true
  /\ isCollapsed
       (handle (C := Sample.collaborators) Sample.guides
          (mount (C := Sample.collaborators) Sample.guides
             (Sample.props "/docs/a"))
          ClickHeader)
     = negb (isCollapsed (mount (C := Sample.collaborators) Sample.guides
                            (Sample.props "/docs/a"))).
Proof.
  split; [reflexivity |].
  apply (proj1 (click_toggles_iff_collapsible (C := Sample.collaborators)
                  Sample.guides
                  (mount Sample.guides (Sample.props "/docs/a"))
                  (reach_mount Sample.guides (Sample.props "/docs/a"))));
    reflexivity.
Defined.

Lemma non_collapsible_header_never_active_witness :
  collapsible Sample.fixedGroup = false
  /\ isActiveSidebarItem (C := Sample.collaborators) Sample.fixedGroup "/docs/a"
     = true
  /\ exists header,
       headerOf (DocSidebarItemCategory (C := Sample.collaborators)
                   Sample.fixedGroup (Sample.props "/docs/a")
                   (m_hooks (mount (C := Sample.collaborators)
                               Sample.fixedGroup (Sample.props "/docs/a"))))
       = Some header
       /\ ~ In "menu__link--active" (classesOf header).
Proof.
  split; [reflexivity |]. split; [reflexivity |].
  apply (non_collapsible_header_never_active (C := Sample.collaborators)
           Sample.fixedGroup (Sample.props "/docs/a")).
  - reflexivity.
  - vm_compute. intuition discriminate.
Defined.

(** A walk through one category: mounted collapsed and inactive, expanded
    by navigation into it, collapsed again by a click, left collapsed by
    later renders on the same page, and untouched by navigation away. *)
Example guides_walkthrough :
  map (fun evs => isCollapsed
                    (run (C := Sample.collaborators) Sample.guides
                       (Sample.props "/docs/c") evs))
    [ [];
      [Rerender (Sample.props "/docs/a")];
      [Rerender (Sample.props "/docs/a"); ClickHeader];
      [Rerender (Sample.props "/docs/a"); ClickHeader;
       Rerender (Sample.props "/docs/a")];
      [Rerender (Sample.props "/docs/a"); ClickHeader;
       Rerender (Sample.props "/docs/c")] ]
  = [true; false; true; true; true].
Proof. reflexivity. Qed.


(** * Further properties of the component *)

(** ** Dispatcher and list renderer *)

Lemma isEmptyCategory_true item :
  isEmptyCategory item = true <-> type item = "category" /\ items item = [].
Proof.
  unfold isEmptyCategory. rewrite andb_true_iff, String.eqb_eq, Nat.eqb_eq.
  split; intros [Hty Hits]; (split; [exact Hty |]).
  - destruct (items item); [reflexivity | discriminate].
  - rewrite Hits. reflexivity.
Qed.

Lemma DocSidebarItem_cases item props :
  if isEmptyCategory item
  then DocSidebarItem item props = None
  else exists e, DocSidebarItem item props = Some e
                 /\ elementOf e = Some (item, props).
Proof.
  unfold isEmptyCategory, DocSidebarItem.
  destruct (type item =? "category"); cbn [andb].
  - destruct (Nat.eqb (length (items item)) 0); [reflexivity |].
    eexists. split; reflexivity.
  - destruct ((type item =? "link")
              && strictEqString (customProps item) "versioned");
      eexists; split; reflexivity.
Qed.

(** X1: the dispatcher returns [null] for an empty category and for
    nothing else: every link, every item of another type and every
    category with an item gets an element. *)
Theorem renders_nothing_iff_empty_category (item : SidebarItem)
  (props : Props) :
  DocSidebarItem item props = None
  <-> type item = "category" /\ items item = [].
Proof.
  rewrite <- isEmptyCategory_true.
  pose proof (DocSidebarItem_cases item props) as H.
  destruct (isEmptyCategory item).
  - split; [reflexivity | intros _; exact H].
  - destruct H as [e [He _]]. rewrite He. split; discriminate.
Qed.

(** X2: only a link is ever handed to the version dropdown: when the
    dispatcher returns a [DocSidebarVersionDropdown] element, the item has
    type ["link"] and [customProps] equal to the string ["versioned"], and
    the element carries that item and the props unchanged.  A category or
    an item of another type with the same marker is not diverted. *)
Theorem version_dropdown_only_for_links (item item' : SidebarItem)
  (props props' : Props) :
  DocSidebarItem item props = Some (DocSidebarVersionDropdownEl item' props') ->
  type item = "link" /\ customProps item = JStr "versioned"
  /\ item' = item /\ props' = props.
Proof.
  unfold DocSidebarItem.
  destruct (type item =? "category").
  - destruct (Nat.eqb (length (items item)) 0); discriminate.
  - destruct (type item =? "link") eqn:Hlink; cbn [andb]; [| discriminate].
    destruct (strictEqString (customProps item) "versioned") eqn:Hmark;
      [| discriminate].
    intros H. injection H as <- <-.
    apply String.eqb_eq in Hlink. apply strictEqString_true in Hmark.
    auto.
Qed.

Lemma version_dropdown_only_for_links_witness :
  type Sample.versionedMarker = "link"
  /\ customProps Sample.versionedMarker = JStr "versioned"
  /\ Sample.versionedMarker = Sample.versionedMarker
  /\ Sample.props "/api/v1" = Sample.props "/api/v1".
Proof.
  apply (version_dropdown_only_for_links Sample.versionedMarker
           Sample.versionedMarker (Sample.props "/api/v1")
           (Sample.props "/api/v1")).
  reflexivity.
Defined.

(** What React leaves of the list renderer's output is what the
    dispatcher returns item by item. *)
Lemma renderedItems_via_DocSidebarItems (its : list SidebarItem)
  (props : Props) :
  flat_map renderElement (DocSidebarItems its props) = renderedItems its props.
Proof.
  unfold DocSidebarItems, renderedItems.
  induction its as [| item its IH]; [reflexivity |].
  cbn [map flat_map]. rewrite IH. reflexivity.
Qed.

(** X3: the list renderer returns one [DocSidebarItem] element per item,
    and once React has rendered those elements, what is left is one
    component element per item that is not an empty category, in the
    order of the list, each created with its item and the shared
    props. *)
Theorem list_renderer_keeps_order_drops_empty (its : list SidebarItem)
  (props : Props) :
  map elementOf (DocSidebarItems its props)
  = map (fun item => Some (item, props)) its
  /\ map elementOf (flat_map renderElement (DocSidebarItems its props))
     = map (fun item => Some (item, props))
         (filter (fun item => negb (isEmptyCategory item)) its).
Proof.
  unfold DocSidebarItems. split.
  - rewrite map_map. reflexivity.
  - induction its as [| item its IH]; [reflexivity |].
    cbn [map flat_map renderElement filter]. rewrite map_app, IH.
    pose proof (DocSidebarItem_cases item props) as H.
    destruct (isEmptyCategory item); cbn [negb].
    + rewrite H. reflexivity.
    + destruct H as [e [He Hof]]. rewrite He. cbn [map app].
      rewrite Hof. reflexivity.
Qed.

(** ** Version dropdown *)

Lemma hasClass_In c e : hasClass c e = true <-> In c (classesOf e).
Proof.
  unfold hasClass. rewrite existsb_exists. split.
  - intros [x [Hin Heq]]. apply String.eqb_eq in Heq. now subst.
  - intros Hin. exists c. split; [exact Hin | apply String.eqb_refl].
Qed.

Lemma desktopEntry_active item v :
  match onlyChild (desktopEntry item v) with
  | Some a => hasClass "dropdown__link--active" a
  | None => false
  end = (label item =? Ver.version v).
Proof.
  unfold desktopEntry, onlyChild, hasClass, classesOf.
  cbn [childrenOf attrsOf className].
  destruct (label item =? Ver.version v); reflexivity.
Qed.

(** In a list whose keys are pairwise distinct, at most one element has a
    given key. *)
Lemma at_most_one_with_key {A : Type} (key : A -> string) (x : string)
  (l : list A) :
  NoDup (map key l) ->
  (length (filter (fun a => String.eqb x (key a)) l) <= 1)%nat.
Proof.
  induction l as [| a l IH]; cbn [map filter]; intros Hnd; [cbn; lia |].
  inversion Hnd as [| k ks Hnotin Hnd' ]; subst.
  destruct (x =? key a) eqn:Hx.
  - apply String.eqb_eq in Hx. subst x.
    assert (Hnone : filter (fun b => key a =? key b) l = []).
    { clear IH Hnd Hnd'. induction l as [| b l IHl]; [reflexivity |].
      cbn [filter]. destruct (key a =? key b) eqn:Hab.
      - apply String.eqb_eq in Hab. exfalso. apply Hnotin.
        cbn [map]. left. symmetry. exact Hab.
      - apply IHl. intros Hin. apply Hnotin. cbn [map]. right. exact Hin. }
    cbn [length]. rewrite Hnone. cbn. lia.
  - apply IH. exact Hnd'.
Qed.

Section VersionDropdownMore.
Context {C : Collaborators}.

Lemma desktop_view item props amb :
  windowSize amb <> "mobile" ->
  dropdownMenu (DocSidebarVersionDropdown item props amb)
  = Some (map (desktopEntry item) (api_versions amb)).
Proof.
  intros Hsize. apply String.eqb_neq in Hsize.
  unfold DocSidebarVersionDropdown. rewrite Hsize. reflexivity.
Qed.

(** X4: for every window size other than ["mobile"] the dropdown is the
    navbar menu with one entry per configured version, in order; an entry
    links to the version's [to] as configured (no base URL applied) and is
    marked active exactly when the item's label equals the version's
    identifier. *)
Theorem desktop_entry_active_iff_label (item : SidebarItem) (props : Props)
  (amb : Ambient) :
  windowSize amb <> "mobile" ->
  exists entries,
    dropdownMenu (DocSidebarVersionDropdown item props amb) = Some entries
    /\ length entries = length (api_versions amb)
    /\ forall i v,
         nth_error (api_versions amb) i = Some v ->
         exists li a,
           nth_error entries i = Some li
           /\ onlyChild li = Some a
           /\ target (attrsOf a) = Some (Ver.to v)
           /\ childrenOf a = [Text (Ver.label v)]
           /\ (hasClass "dropdown__link--active" a = true
               <-> label item = Ver.version v).
Proof.
  intros Hsize. eexists. split; [apply desktop_view; exact Hsize |].
  split; [apply length_map |].
  intros i v Hv. do 2 eexists.
  split; [apply map_nth_error; exact Hv |].
  split; [reflexivity |]. split; [reflexivity |]. split; [reflexivity |].
  rewrite <- String.eqb_eq. unfold hasClass, classesOf.
  cbn [attrsOf className].
  destruct (label item =? Ver.version v); vm_compute; tauto.
Qed.

(** X5: when the configured versions have pairwise distinct identifiers,
    the desktop menu marks at most one entry active. *)
Theorem desktop_at_most_one_active (item : SidebarItem) (props : Props)
  (amb : Ambient) :
  windowSize amb <> "mobile" ->
  NoDup (map Ver.version (api_versions amb)) ->
  exists entries,
    dropdownMenu (DocSidebarVersionDropdown item props amb) = Some entries
    /\ (length
          (filter
             (fun li => match onlyChild li with
                        | Some a => hasClass "dropdown__link--active" a
                        | None => false
                        end)
             entries) <= 1)%nat.
Proof.
  intros Hsize Hnd. eexists. split; [apply desktop_view; exact Hsize |].
  pose proof (at_most_one_with_key Ver.version (label item)
                (api_versions amb) Hnd) as Hone.
  induction (api_versions amb) as [| v vs IH]; [cbn; lia |].
  cbn [map filter] in *. rewrite desktopEntry_active.
  inversion Hnd as [| k ks Hnotin Hnd']; subst.
  destruct (label item =? Ver.version v).
  - cbn [length] in *.
    assert (Hsame :
      forall l, length (filter (fun li => match onlyChild li with
                                          | Some a => hasClass "dropdown__link--active" a
                                          | None => false
                                          end) (map (desktopEntry item) l))
                = length (filter (fun a => label item =? Ver.version a) l)).
    { intros l. induction l as [| b l IHl]; [reflexivity |].
      cbn [map filter]. rewrite desktopEntry_active.
      destruct (label item =? Ver.version b); cbn [length]; rewrite IHl;
        reflexivity. }
    rewrite Hsame. exact Hone.
  - apply IH; assumption.
Qed.

(** X6: in the mobile branch, when there is no [window] (so no location
    to read), there is still one button per version and none of them is
    marked active. *)
Theorem mobile_without_window_none_active (item : SidebarItem)
  (props : Props) (amb : Ambient) :
  windowSize amb = "mobile" ->
  location_pathname amb = None ->
  exists buttons,
    DocSidebarVersionDropdown item props amb = Host "div" noAttrs buttons
    /\ length buttons = length (api_versions amb)
    /\ Forall (fun b => hasClass "button--active--tab" b = false) buttons.
Proof.
  intros Hsize Hloc. unfold DocSidebarVersionDropdown. rewrite Hsize.
  eexists. split; [reflexivity |]. split; [apply length_map |].
  apply Forall_forall. intros b Hb. apply in_map_iff in Hb as [v [<- _]].
  unfold mobileButton, isCurrentVersion. rewrite Hloc. reflexivity.
Qed.

(** X7: the mobile comparison treats two missing pieces as equal.  For a
    version whose resolved URL splits on ["/"] into at most two pieces,
    the button is marked active exactly when the location's pathname also
    splits into at most two pieces: on the site root every such button is
    active at once. *)
Theorem mobile_short_paths_compare_equal (amb : Ambient) (pathname : string)
  (v : Ver.t) :
  location_pathname amb = Some pathname ->
  (length (split "/"%char (useBaseUrl (Ver.to v))) <= 2)%nat ->
  (hasClass "button--active--tab" (mobileButton amb v) = true
   <-> (length (split "/"%char pathname) <= 2)%nat).
Proof.
  intros Hloc Hshort.
  rewrite hasClass_In.
  assert (Hactive :
    In "button--active--tab" (classesOf (mobileButton amb v))
    <-> isCurrentVersion amb v = true).
  { unfold classesOf, mobileButton. cbn [attrsOf className].
    destruct (isCurrentVersion amb v).
    - split; [reflexivity | intros _; exact mobile_active_classes].
    - split; [| discriminate].
      intros H. destruct (mobile_inactive_classes H). }
  rewrite Hactive. unfold isCurrentVersion. rewrite Hloc.
  rewrite looseEq_eq. unfold index.
  apply nth_error_None in Hshort. rewrite Hshort.
  rewrite <- nth_error_None. reflexivity.
Qed.

End VersionDropdownMore.

Lemma desktop_entry_active_iff_label_witness :
  windowSize (mkAmbient "desktop" None Sample.versions) <> "mobile"
  /\ exists entries,
       dropdownMenu
         (DocSidebarVersionDropdown (C := Sample.collaborators)
            Sample.versionedMarker (Sample.props "/api/v1")
            (mkAmbient "desktop" None Sample.versions))
       = Some entries
       /\ length entries = 2%nat.
Proof.
  split; [discriminate |].
  destruct (desktop_entry_active_iff_label (C := Sample.collaborators)
              Sample.versionedMarker (Sample.props "/api/v1")
              (mkAmbient "desktop" None Sample.versions))
    as [entries [Hmenu [Hlen _]]]; [discriminate |].
  exists entries. split; [exact Hmenu | exact Hlen].
Defined.

Lemma desktop_at_most_one_active_witness :
  NoDup (map Ver.version Sample.versions)
  /\ exists entries,
       dropdownMenu
         (DocSidebarVersionDropdown (C := Sample.collaborators)
            Sample.versionedMarker (Sample.props "/api/v1")
            (mkAmbient "ssr" None Sample.versions))
       = Some entries
       /\ (length
             (filter
                (fun li => match onlyChild li with
                           | Some a => hasClass "dropdown__link--active" a
                           | None => false
                           end)
                entries) <= 1)%nat.
Proof.
  assert (Hnd : NoDup (map Ver.version Sample.versions)).
  { repeat constructor; cbn; intuition discriminate. }
  split; [exact Hnd |].
  apply (desktop_at_most_one_active (C := Sample.collaborators)
           Sample.versionedMarker (Sample.props "/api/v1")
           (mkAmbient "ssr" None Sample.versions));
    [discriminate | exact Hnd].
Defined.

Lemma mobile_without_window_none_active_witness :
  exists buttons,
    DocSidebarVersionDropdown (C := Sample.collaborators)
      Sample.versionedMarker (Sample.props "/api/v1")
      (mkAmbient "mobile" None Sample.versions)
    = Host "div" noAttrs buttons
    /\ length buttons = 2%nat
    /\ Forall (fun b => hasClass "button--active--tab" b = false) buttons.
Proof.
  apply (mobile_without_window_none_active (C := Sample.collaborators)
           Sample.versionedMarker (Sample.props "/api/v1")
           (mkAmbient "mobile" None Sample.versions));
    reflexivity.
Defined.

Lemma mobile_short_paths_compare_equal_witness :
  hasClass "button--active--tab"
    (mobileButton (C := Sample.collaborators)
       (mkAmbient "mobile" (Some "/") [Ver.mk "v1" "Version 1" "/api"])
       (Ver.mk "v1" "Version 1" "/api"))
  = true.
Proof.
  apply (mobile_short_paths_compare_equal (C := Sample.collaborators)
           (mkAmbient "mobile" (Some "/") [Ver.mk "v1" "Version 1" "/api"])
           "/" (Ver.mk "v1" "Version 1" "/api")).
  - reflexivity.
  - cbn. lia.
  - cbn. lia.
Defined.

(** ** Link renderer *)

Lemma string_append_assoc (a b c : string) : (a ++ b) ++ c = a ++ (b ++ c).
Proof.
  induction a as [| ch a IH]; cbn; [reflexivity | now rewrite IH].
Qed.

Lemma string_append_empty (a : string) : a ++ "" = a.
Proof.
  induction a as [| ch a IH]; cbn; [reflexivity | now rewrite IH].
Qed.

Section LinkMore.
Context {C : Collaborators}.

(** X8: a link item always points at its [href] and takes the [tabIndex]
    passed down; for an internal URL the [Link] is a nav link with exact
    matching, calls [onItemClick] and shows the bare label, for any other
    URL it has none of the three and shows the label followed by the
    external-link icon. *)
Theorem link_wiring_by_url_kind (item : SidebarItem) (props : Props) :
  exists a kids,
    onlyChild (DocSidebarItemLink item props) = Some (LinkEl a kids)
    /\ target a = Some (href item)
    /\ attrTabIndex a = tabIndex props
    /\ (isInternalUrl (href item) = true ->
        onClick a = Some OnItemClick /\ isNavLink a = true /\ exact a = true
        /\ kids = [Text (label item)])
    /\ (isInternalUrl (href item) = false ->
        onClick a = None /\ isNavLink a = false /\ exact a = false
        /\ kids = [Host "span" noAttrs [Text (label item); IconExternalLinkEl]]).
Proof.
  unfold DocSidebarItemLink, onlyChild. cbn [childrenOf].
  do 2 eexists. split; [reflexivity |].
  cbn [target attrTabIndex onClick isNavLink exact].
  split; [reflexivity |]. split; [reflexivity |].
  split; intros Hurl; rewrite Hurl; repeat split.
Qed.

Lemma falsy_customProps_lemma (item : SidebarItem) (props : Props) :
  truthy (customProps item) = false ->
  linkClassOf (DocSidebarItemLink item props)
  = Some (if isActiveSidebarItem item (activePath props)
          then "menu__link noop menu__link--active"
          else "menu__link noop").
Proof.
  intros Hcp. unfold linkClassOf, DocSidebarItemLink, onlyChild, linkMethod.
  rewrite Hcp. cbn [childrenOf attrsOf className].
  destruct (isActiveSidebarItem item (activePath props)); reflexivity.
Qed.

(** X9: every falsy [customProps] ([undefined], [null], [false], the empty
    string) leaves the method at ["noop"]: the link's class is
    ["menu__link noop"], followed by ["menu__link--active"] when the link
    is active. *)
Theorem falsy_customProps_is_noop (item : SidebarItem) (props : Props) :
  truthy (customProps item) = false ->
  linkClassOf (DocSidebarItemLink item props)
  = Some (if isActiveSidebarItem item (activePath props)
          then "menu__link noop menu__link--active"
          else "menu__link noop").
Proof.
  intros Hcp.
  unfold linkClassOf, DocSidebarItemLink, onlyChild. cbn [childrenOf attrsOf className].
  assert (Hmethod : linkMethod item = JStr "noop").
  { unfold linkMethod. rewrite Hcp. reflexivity. }
  rewrite Hmethod.
  destruct (isActiveSidebarItem item (activePath props)); reflexivity.
Qed.

(** X10: a [customProps] that is present but has no usable [method] (the
    property is missing, [null], [false] or empty) gives neither ["noop"]
    nor a method tag: the class is ["menu__link"] alone, followed by
    ["menu__link--active"] when the link is active. *)
Theorem customProps_without_method_has_no_tag (item : SidebarItem)
  (props : Props) :
  truthy (customProps item) = true ->
  truthy (getProp (customProps item) "method") = false ->
  linkClassOf (DocSidebarItemLink item props)
  = Some (if isActiveSidebarItem item (activePath props)
          then "menu__link menu__link--active"
          else "menu__link").
Proof.
  intros Hcp Hmethod.
  unfold linkClassOf, DocSidebarItemLink, onlyChild, linkMethod.
  rewrite Hcp. cbn [childrenOf attrsOf className].
  unfold clsx. cbn [fold_left]. rewrite Hmethod.
  destruct (isActiveSidebarItem item (activePath props)); reflexivity.
Qed.

(** X11: a [customProps.method] that is a non-empty string becomes a class
    of the link, right after ["menu__link"] and before the active
    class. *)
Theorem method_tag_becomes_class (item : SidebarItem) (props : Props)
  (method : string) :
  truthy (customProps item) = true ->
  getProp (customProps item) "method" = JStr method ->
  method <> "" ->
  linkClassOf (DocSidebarItemLink item props)
  = Some ("menu__link " ++ method ++
          (if isActiveSidebarItem item (activePath props)
           then " menu__link--active" else "")).
Proof.
  intros Hcp Hmethod Hne. apply String.eqb_neq in Hne.
  unfold linkClassOf, DocSidebarItemLink, onlyChild, linkMethod.
  rewrite Hcp, Hmethod. cbn [childrenOf attrsOf className].
  unfold clsx, objectLiteral.
  cbn [fold_left setField fst snd truthy toVal]. rewrite Hne.
  destruct (isActiveSidebarItem item (activePath props)); cbn.
  - rewrite string_append_assoc. reflexivity.
  - rewrite string_append_empty. reflexivity.
Qed.

(** X12: an item of an unrecognised type is shown by the link renderer
    but never highlighted: the matcher answers false for it on every
    path, so with no [customProps] its class is ["menu__link noop"] even
    on the page its [href] points to. *)
Theorem unknown_type_never_highlighted (item : SidebarItem) (props : Props) :
  type item <> "category" ->
  type item <> "link" ->
  truthy (customProps item) = false ->
  DocSidebarItem item props = Some (DocSidebarItemLinkEl item props)
  /\ isActiveSidebarItem item (activePath props) = false
  /\ linkClassOf (DocSidebarItemLink item props) = Some "menu__link noop".
Proof.
  intros Hcat Hlink Hcp.
  assert (Hidle : isActiveSidebarItem item (activePath props) = false).
  { rewrite isActiveSidebarItem_eq.
    apply String.eqb_neq in Hcat, Hlink. rewrite Hcat, Hlink. reflexivity. }
  split; [| split; [exact Hidle |]].
  - unfold DocSidebarItem.
    apply String.eqb_neq in Hcat, Hlink. rewrite Hcat, Hlink. reflexivity.
  - rewrite (falsy_customProps_lemma item props Hcp), Hidle. reflexivity.
Qed.

End LinkMore.

Lemma link_wiring_by_url_kind_witness :
  exists a kids,
    onlyChild (DocSidebarItemLink (C := Sample.collaborators)
                 (Sample.link "Ext" "https://external.com" JUndefined)
                 (Sample.props "/docs/a"))
    = Some (LinkEl a kids)
    /\ onClick a = None
    /\ kids = [Host "span" noAttrs [Text "Ext"; IconExternalLinkEl]].
Proof.
  destruct (link_wiring_by_url_kind (C := Sample.collaborators)
              (Sample.link "Ext" "https://external.com" JUndefined)
              (Sample.props "/docs/a"))
    as [a [kids [Hlink [_ [_ [_ Hext]]]]]].
  exists a, kids. split; [exact Hlink |].
  destruct (Hext eq_refl) as [Hclick [_ [_ Hkids]]].
  split; [exact Hclick | exact Hkids].
Defined.

Lemma falsy_customProps_is_noop_witness :
  truthy (customProps (Sample.link "N" "/docs/n" JNull)) = false
  /\ linkClassOf (DocSidebarItemLink (C := Sample.collaborators)
                    (Sample.link "N" "/docs/n" JNull) (Sample.props "/docs/n"))
     = Some "menu__link noop menu__link--active".
Proof.
  split; [reflexivity |].
  apply (falsy_customProps_is_noop (C := Sample.collaborators)
           (Sample.link "N" "/docs/n" JNull) (Sample.props "/docs/n")).
  reflexivity.
Defined.

Lemma customProps_without_method_has_no_tag_witness :
  truthy (customProps Sample.versionedMarker) = true
  /\ linkClassOf (DocSidebarItemLink (C := Sample.collaborators)
                    Sample.versionedMarker (Sample.props "/docs/a"))
     = Some "menu__link".
Proof.
  split; [reflexivity |].
  apply (customProps_without_method_has_no_tag (C := Sample.collaborators)
           Sample.versionedMarker (Sample.props "/docs/a"));
    reflexivity.
Defined.

Lemma method_tag_becomes_class_witness :
  getProp (customProps Sample.versionedObject) "method" = JStr "versioned"
  /\ linkClassOf (DocSidebarItemLink (C := Sample.collaborators)
                    Sample.versionedObject (Sample.props "/api/v1"))
     = Some "menu__link versioned menu__link--active".
Proof.
  split; [reflexivity |].
  apply (method_tag_becomes_class (C := Sample.collaborators)
           Sample.versionedObject (Sample.props "/api/v1") "versioned");
    [reflexivity | reflexivity | discriminate].
Defined.

Lemma unknown_type_never_highlighted_witness :
  isSamePath (Collaborators := Sample.collaborators)
    (href Sample.htmlItem) "/raw" = true
  /\ linkClassOf (DocSidebarItemLink (C := Sample.collaborators)
                    Sample.htmlItem (Sample.props "/raw"))
     = Some "menu__link noop".
Proof.
  split; [reflexivity |].
  apply (unknown_type_never_highlighted (C := Sample.collaborators)
           Sample.htmlItem (Sample.props "/raw"));
    [discriminate | discriminate | reflexivity].
Defined.

(** ** Category *)

Section CategoryMore.
Context {C : Collaborators}.

(** X13: the three places where a rendered category shows its state
    agree: the [li] carries ["menu__list-item--collapsed"] exactly when
    [collapsed] holds, the [Collapsible] gets the same flag, and the
    nested list gets the category's items, the same active path and
    [tabIndex] -1 when collapsed, 0 when expanded, whatever [tabIndex] the
    category itself received. *)
Theorem category_view_shows_collapsed (item : SidebarItem) (props : Props)
  (h : CategoryHooks) :
  hasClass "menu__list-item--collapsed" (DocSidebarItemCategory item props h)
  = collapsed_state h
  /\ exists box,
       collapsibleOf (DocSidebarItemCategory item props h) = Some box
       /\ nestedItems box
          = Some (collapsed_state h, items item,
                  mkProps (activePath props)
                    (Some (if collapsed_state h then (-1)%Z else 0%Z))).
Proof.
  unfold DocSidebarItemCategory, categoryView. split.
  - destruct (collapsed_state h); reflexivity.
  - eexists. split; reflexivity.
Qed.

Lemma renderPass_expanded item props h :
  collapsed_state h = false ->
  collapsed_state (fst (renderPass item props h)) = false
  /\ snd (renderPass item props h) = false.
Proof.
  intros Hc. unfold renderPass, useAutoExpandActiveCategory, autoExpandEffect.
  rewrite Hc, andb_false_r.
  destruct (depsChanged _ _); cbn; auto.
Qed.

Lemma renderLoop_expanded item props h :
  collapsed_state h = false ->
  collapsed_state (renderLoop item props h) = false.
Proof.
  intros Hc. unfold renderLoop.
  destruct (renderPass_expanded item props h Hc) as [Hc1 Hagain].
  destruct (renderPass item props h) as [h1 again]. cbn in Hc1, Hagain.
  subst again. exact Hc1.
Qed.

(** X14: a category that is not collapsible is expanded in every state it
    can reach, whatever its [collapsed] flag says and whatever clicks and
    navigations happen, and its header has neither a click handler nor an
    [href]. *)
Theorem non_collapsible_always_expanded (item : SidebarItem) (m : Mounted) :
  collapsible item = false ->
  reachable item m ->
  isCollapsed m = false
  /\ exists header,
       headerOf (DocSidebarItemCategory item (m_props m) (m_hooks m))
       = Some header
       /\ onClick (attrsOf header) = None
       /\ target (attrsOf header) = None.
Proof.
  intros Hc Hreach. split.
  - induction Hreach as [props | m ev _ IH].
    + rewrite mount_collapsed. unfold initialState. rewrite Hc. reflexivity.
    + destruct ev as [props' |].
      * apply renderLoop_expanded. exact IH.
      * rewrite handle_click, Hc. exact IH.
  - unfold DocSidebarItemCategory, categoryView. rewrite Hc.
    eexists. split; [reflexivity |]. split; reflexivity.
Qed.

(** X15: the header of a collapsible category carries
    ["menu__link--active"] exactly when the category contains the active
    path, provided the class generated for [styles.menuLinkText] is not
    that class itself. *)
Theorem collapsible_header_active_iff (item : SidebarItem) (props : Props)
  (h : CategoryHooks) :
  collapsible item = true ->
  styles_menuLinkText <> "menu__link--active" ->
  exists header,
    headerOf (DocSidebarItemCategory item props h) = Some header
    /\ (hasClass "menu__link--active" header = true
        <-> isActiveSidebarItem item (activePath props) = true).
Proof.
  intros Hc Hcss. unfold DocSidebarItemCategory, categoryView.
  rewrite Hc. cbn [headerOf]. eexists. split; [reflexivity |].
  unfold hasClass, classesOf. cbn [attrsOf className andb negb].
  unfold objectLiteral. cbn [fold_left setField fst snd].
  change ("menu__link--sublist" =? "menu__link--active") with false.
  cbn [setField].
  assert (Hact : ("menu__link--active" =? styles_menuLinkText) = false).
  { apply String.eqb_neq. congruence. }
  rewrite Hact.
  destruct ("menu__link--sublist" =? styles_menuLinkText);
    destruct (isActiveSidebarItem item (activePath props));
    vm_compute; tauto.
Qed.

(** X16: a re-render never collapses a category and a click on a header
    that has no handler changes nothing, so a category goes from expanded
    to collapsed only by a click on a collapsible header.  This holds
    from any hook state. *)
Theorem only_a_click_collapses (item : SidebarItem) (m : Mounted)
  (ev : event) :
  isCollapsed m = false ->
  isCollapsed (handle item m ev) = true ->
  ev = ClickHeader /\ collapsible item = true.
Proof.
  intros Hopen Hshut. destruct ev as [props' |].
  - unfold isCollapsed, handle in Hshut. cbn [m_hooks] in Hshut.
    rewrite (renderLoop_expanded item props' (m_hooks m) Hopen) in Hshut.
    discriminate.
  - split; [reflexivity |].
    rewrite handle_click in Hshut.
    destruct (collapsible item); [reflexivity | congruence].
Qed.

Lemma no_click_keeps_active_expanded item evs :
  forall m,
    reachable item m ->
    (isActiveNow item m = true -> isCollapsed m = false) ->
    forallb isRerender evs = true ->
    isActiveNow item (fold_left (handle item) evs m) = true ->
    isCollapsed (fold_left (handle item) evs m) = false.
Proof.
  induction evs as [| ev evs IH]; intros m Hreach Hinv Hevs; cbn [fold_left].
  - exact Hinv.
  - cbn [forallb] in Hevs. apply andb_true_iff in Hevs as [Hev Hrest].
    destruct ev as [props' |]; [| discriminate].
    apply IH; [constructor; exact Hreach | | exact Hrest].
    rewrite (rerender_collapsed item m props' (reachable_settled item m Hreach)).
    change (isActiveNow item (handle item m (Rerender props')))
      with (isActiveSidebarItem item (activePath props')).
    intros Hnew. rewrite Hnew.
    destruct (isActiveNow item m) eqn:Hold.
    + rewrite (Hinv eq_refl). reflexivity.
    + apply andb_false_r.
Qed.

(** X17: as long as nobody clicks the header, a category that contains
    the active path is expanded: after mounting and any sequence of
    re-renders, active implies not collapsed. *)
Theorem active_category_expanded_without_clicks (item : SidebarItem)
  (props : Props) (evs : list event) :
  forallb isRerender evs = true ->
  isActiveNow item (run item props evs) = true ->
  isCollapsed (run item props evs) = false.
Proof.
  intros Hevs. unfold run.
  apply no_click_keeps_active_expanded; [constructor | | exact Hevs].
  intros Hact. rewrite mount_collapsed.
  change (isActiveNow item (mount item props))
    with (isActiveSidebarItem item (activePath props)) in Hact.
  rewrite Hact. apply initialState_active.
Qed.

(** X18: clicks compose: after [n] clicks on the header of a collapsible
    category the state is the starting one when [n] is even and its
    opposite when [n] is odd. *)
Theorem clicks_compose_by_parity (item : SidebarItem) (n : nat) :
  collapsible item = true ->
  forall m,
    reachable item m ->
    isCollapsed (fold_left (handle item) (repeat ClickHeader n) m)
    = if Nat.even n then isCollapsed m else negb (isCollapsed m).
Proof.
  intros Hc. induction n as [| n IH]; intros m Hreach; [reflexivity |].
  cbn [repeat fold_left].
  rewrite IH by (constructor; exact Hreach).
  rewrite (click_flips item m Hc Hreach).
  rewrite Nat.even_succ, <- Nat.negb_even.
  destruct (Nat.even n), (isCollapsed m); reflexivity.
Qed.

(** X19: the auto-expand effect cannot keep the category rendering: once
    the render loop has ended, one more render stores nothing and leaves
    [collapsed] as it is, and handling the same props a second time gives
    the same [collapsed] as the first time. *)
Theorem rerender_is_stable (item : SidebarItem) (props : Props)
  (m : Mounted) :
  snd (renderPass item props (renderLoop item props (m_hooks m))) = false
  /\ collapsed_state
       (fst (renderPass item props (renderLoop item props (m_hooks m))))
     = collapsed_state (renderLoop item props (m_hooks m))
  /\ isCollapsed (handle item (handle item m (Rerender props)) (Rerender props))
     = isCollapsed (handle item m (Rerender props)).
Proof.
  pose proof (renderLoop_previous item props (m_hooks m)) as Hprev.
  destruct (renderPass_steady item props _ Hprev) as [Hsame Hquiet].
  split; [exact Hquiet |]. split; [exact Hsame |].
  unfold isCollapsed, handle. cbn [m_hooks].
  apply renderLoop_steady. exact Hprev.
Qed.

(** X20: a category under which some link matches the active path is
    first rendered expanded, whatever its [collapsed] flag and whether or
    not it is collapsible: [initialState] already answers expanded, the
    effect of the first commit has nothing to correct, and the mounted
    category is expanded. *)
Theorem category_with_active_link_mounts_expanded (c l : SidebarItem)
  (props : Props) :
  type c = "category" ->
  linkUnder c l ->
  isSamePath (href l) (activePath props) = true ->
  collapsed_state (initialHooks c props) = false
  /\ hasClass "menu__list-item--collapsed"
       (DocSidebarItemCategory c props (initialHooks c props)) = false
  /\ snd (renderPass c props (initialHooks c props)) = false
  /\ isCollapsed (mount c props) = false.
Proof.
  intros Hty Hunder Hsame.
  pose proof (linkUnder_active (activePath props) c l Hunder Hty Hsame)
    as Hact.
  assert (Hfirst : collapsed_state (initialHooks c props) = false).
  { unfold initialHooks. cbn. rewrite Hact. apply initialState_active. }
  split; [exact Hfirst |]. split; [| split].
  - unfold DocSidebarItemCategory, categoryView. rewrite Hfirst. reflexivity.
  - rewrite first_pass_stores_nothing. reflexivity.
  - rewrite mount_from_initialHooks. unfold isCollapsed, renderLoop.
    rewrite first_pass_stores_nothing. exact Hfirst.
Qed.

(** X21: the dispatcher never drops a category that contains the active
    path: an active category has at least one item, so it is rendered by
    the category component. *)
Theorem active_category_is_rendered (c : SidebarItem) (props : Props)
  (path : string) :
  type c = "category" ->
  isActiveSidebarItem c path = true ->
  DocSidebarItem c props = Some (DocSidebarItemCategoryEl c props).
Proof.
  intros Hty Hact. rewrite (isActive_category _ _ Hty) in Hact.
  unfold DocSidebarItem. rewrite Hty. cbn.
  destruct (items c) as [| x xs]; [discriminate | reflexivity].
Qed.

End CategoryMore.

Section TabOrderAndHighlight.
Context {C : Collaborators}.

(** X22: the items inside a category follow its state in the tab order.
    The nested list is rendered with [tabIndex] -1 while the category is
    collapsed and 0 while it is expanded; a child shown by the link
    renderer puts that [tabIndex] on its [Link], and a child shown by the
    category component puts it on its header. *)
Theorem children_follow_tab_order (item child : SidebarItem) (props : Props)
  (h h' : CategoryHooks) :
  In child (items item) ->
  exists box p',
    collapsibleOf (DocSidebarItemCategory item props h) = Some box
    /\ nestedItems box = Some (collapsed_state h, items item, p')
    /\ tabIndex p' = Some (if collapsed_state h then (-1)%Z else 0%Z)
    /\ In (DocSidebarItemEl child p') (DocSidebarItems (items item) p')
    /\ (exists a, onlyChild (DocSidebarItemLink child p') = Some a
                  /\ attrTabIndex (attrsOf a) = tabIndex p')
    /\ (exists header,
          headerOf (DocSidebarItemCategory child p' h') = Some header
          /\ attrTabIndex (attrsOf header) = tabIndex p').
Proof.
  intros Hin. unfold DocSidebarItemCategory at 1. unfold categoryView at 1.
  do 2 eexists. split; [reflexivity |]. split; [reflexivity |].
  split; [reflexivity |].
  split; [apply in_map_iff; exists child; split; [reflexivity | exact Hin] |].
  split; eexists; split; reflexivity.
Qed.

(** X23: a link without [customProps] is highlighted exactly on its own
    page: its [Link] carries ["menu__link--active"] iff [isSamePath]
    accepts its [href] and the active path. *)
Theorem plain_link_active_iff_same_path (item : SidebarItem) (props : Props) :
  type item = "link" ->
  truthy (customProps item) = false ->
  exists a,
    onlyChild (DocSidebarItemLink item props) = Some a
    /\ (hasClass "menu__link--active" a = true
        <-> isSamePath (href item) (activePath props) = true).
Proof.
  intros Hty Hcp. unfold DocSidebarItemLink, onlyChild, linkMethod.
  rewrite Hcp. cbn [childrenOf]. eexists. split; [reflexivity |].
  rewrite <- (isActive_link item (activePath props) Hty).
  unfold hasClass, classesOf. cbn [attrsOf className].
  destruct (isActiveSidebarItem item (activePath props)); vm_compute; tauto.
Qed.

End TabOrderAndHighlight.

Lemma non_collapsible_always_expanded_witness :
  collapsed Sample.fixedGroup = true
  /\ isCollapsed
       (run (C := Sample.collaborators) Sample.fixedGroup
          (Sample.props "/docs/c")
          [ClickHeader; Rerender (Sample.props "/docs/a"); ClickHeader])
     = false.
Proof.
  split; [reflexivity |].
  apply (non_collapsible_always_expanded (C := Sample.collaborators)
           Sample.fixedGroup).
  - reflexivity.
  - apply run_reachable.
Defined.

Lemma collapsible_header_active_iff_witness :
  collapsible Sample.guides = true
  /\ exists header,
       headerOf (DocSidebarItemCategory (C := Sample.collaborators)
                   Sample.guides (Sample.props "/docs/a")
                   (mkHooks false None None))
       = Some header
       /\ (hasClass "menu__link--active" header = true
           <-> isActiveSidebarItem (C := Sample.collaborators)
                 Sample.guides "/docs/a" = true).
Proof.
  split; [reflexivity |].
  apply (collapsible_header_active_iff (C := Sample.collaborators)
           Sample.guides (Sample.props "/docs/a") (mkHooks false None None));
    [reflexivity | discriminate].
Defined.

Lemma only_a_click_collapses_witness :
  isCollapsed (mount (C := Sample.collaborators) Sample.guides
                 (Sample.props "/docs/a")) = false
  /\ ClickHeader = ClickHeader
  /\ collapsible Sample.guides = true.
Proof.
  split; [reflexivity |].
  apply (only_a_click_collapses (C := Sample.collaborators) Sample.guides
           (mount (C := Sample.collaborators) Sample.guides
              (Sample.props "/docs/a"))
           ClickHeader);
    reflexivity.
Defined.

Lemma active_category_expanded_without_clicks_witness :
  isCollapsed (mount (C := Sample.collaborators) Sample.guides
                 (Sample.props "/docs/c")) = true
  /\ isCollapsed
       (run (C := Sample.collaborators) Sample.guides (Sample.props "/docs/c")
          [Rerender (Sample.props "/docs/b"); Rerender (Sample.props "/docs/a")])
     = false.
Proof.
  split; [reflexivity |].
  apply (active_category_expanded_without_clicks (C := Sample.collaborators)
           Sample.guides (Sample.props "/docs/c")
           [Rerender (Sample.props "/docs/b"); Rerender (Sample.props "/docs/a")]);
    reflexivity.
Defined.

Lemma clicks_compose_by_parity_witness :
  isCollapsed
    (fold_left (handle (C := Sample.collaborators) Sample.guides)
       (repeat ClickHeader 3)
       (mount (C := Sample.collaborators) Sample.guides (Sample.props "/docs/a")))
  = negb (isCollapsed (mount (C := Sample.collaborators) Sample.guides
                         (Sample.props "/docs/a"))).
Proof.
  apply (clicks_compose_by_parity (C := Sample.collaborators) Sample.guides 3
           eq_refl
           (mount (C := Sample.collaborators) Sample.guides
              (Sample.props "/docs/a"))
           (reach_mount Sample.guides (Sample.props "/docs/a"))).
Defined.

Lemma category_with_active_link_mounts_expanded_witness :
  collapsed Sample.guides = true
  /\ linkUnder Sample.guides Sample.docA
  /\ collapsed_state (initialHooks (C := Sample.collaborators) Sample.guides
                        (Sample.props "/docs/a")) = false.
Proof.
  assert (Hunder : linkUnder Sample.guides Sample.docA).
  { eapply under_category with (sub := Sample.category "Deep" [Sample.docA] true true).
    - cbn. right. left. reflexivity.
    - reflexivity.
    - apply under_item; [cbn; left; reflexivity | reflexivity]. }
  split; [reflexivity |]. split; [exact Hunder |].
  apply (category_with_active_link_mounts_expanded (C := Sample.collaborators)
           Sample.guides Sample.docA (Sample.props "/docs/a"));
    [reflexivity | exact Hunder | reflexivity].
Defined.

Lemma active_category_is_rendered_witness :
  DocSidebarItem Sample.guides (Sample.props "/docs/a")
  = Some (DocSidebarItemCategoryEl Sample.guides (Sample.props "/docs/a")).
Proof.
  apply (active_category_is_rendered (C := Sample.collaborators)
           Sample.guides (Sample.props "/docs/a") "/docs/a");
    reflexivity.
Defined.

Lemma children_follow_tab_order_witness :
  exists box p',
    collapsibleOf (DocSidebarItemCategory (C := Sample.collaborators)
                     Sample.guides (Sample.props "/docs/c")
                     (mkHooks true None None)) = Some box
    /\ nestedItems box = Some (true, items Sample.guides, p')
    /\ tabIndex p' = Some (-1)%Z.
Proof.
  destruct (children_follow_tab_order (C := Sample.collaborators)
              Sample.guides Sample.docB (Sample.props "/docs/c")
              (mkHooks true None None) (mkHooks true None None))
    as [box [p' [Hbox [Hnested [Htab _]]]]].
  - cbn. left. reflexivity.
  - exists box, p'. split; [exact Hbox |]. split; [exact Hnested | exact Htab].
Defined.

Lemma plain_link_active_iff_same_path_witness :
  exists a,
    onlyChild (DocSidebarItemLink (C := Sample.collaborators)
                 Sample.docA (Sample.props "/docs/a")) = Some a
    /\ (hasClass "menu__link--active" a = true
        <-> isSamePath (Collaborators := Sample.collaborators)
              (href Sample.docA) "/docs/a" = true).
Proof.
  apply (plain_link_active_iff_same_path (C := Sample.collaborators)
           Sample.docA (Sample.props "/docs/a"));
    reflexivity.
Defined.
